(** * beneuro_data: the command surface ([cli.py]) and the transfer policy

    A shallow embedding of [src/beneuro_data/cli.py].  The four commands
    [validate_session], [rename_videos], [upload_session] and
    [validate_sessions] are effectful Python: they query the file system,
    call into [data_validation], [data_transfer] and [video_renaming],
    print a report and raise exceptions.  They are embedded in a small
    trace-and-exception monad [io]: a run is the list of observable events
    it performed, in order, together with the value returned or the
    exception raised.

    The three collaborator modules and [config] are not part of the
    sources at hand; the commands take them as fields of a [World].  The
    library calls of the commands keep their error paths: [is_dir] and
    [exists] raise what [os.stat] raises unless it is one of the four
    errors they take for "no", [iterdir] raises what [os.listdir] raises,
    and [rich.print] may fail to render its argument.  The
    copy policy of the transfer engine is modelled separately, from the
    design text, in [Module TransferEngine]. *)

From Stdlib Require Import String Ascii List Bool ZArith DecimalString.
From stdpp Require Import base option list strings gmap.
Import ListNotations.
Open Scope string_scope.
Open Scope list_scope.

(* ===================================================================== *)
(** ** Python values and exceptions *)
(* ===================================================================== *)

Module Py.

(** The objects that end up in an exception's [args] tuple. *)
Inductive value : Type :=
| PStr (s : string)
| PInt (z : Z)
| PObj (rendering : string).   (* any other object, by what [format] gives *)

(** [format(v, "")], which is what an f-string field [{v}] evaluates. *)
Definition format (v : value) : string :=
  match v with
  | PStr s => s
  | PInt z => NilZero.string_of_int (Z.to_int z)
  | PObj r => r
  end.

(** The exception classes that occur, and two that do not derive from
    [Exception]. *)
Inductive exc_class : Type :=
| NotImplementedError
| ValueError
| IndexError
| FileNotFoundError
| NotADirectoryError
| PermissionError
| OSError
| OtherException (name : string)      (* any other subclass of Exception *)
| KeyboardInterrupt
| SystemExit.

(** [issubclass(c, Exception)]: everything but the two classes that derive
    from [BaseException] directly. *)
Definition derives_from_Exception (c : exc_class) : bool :=
  match c with
  | KeyboardInterrupt | SystemExit => false
  | _ => true
  end.

Record exn : Type := mk_exn { exc_type : exc_class; args : list value }.

(** [C(msg)]: an exception raised with one string argument. *)
Definition exc (c : exc_class) (msg : string) : exn := mk_exn c [PStr msg].

(** [os.strerror(errno)] for the error numbers of Linux that file-system
    calls give; any other number is an unknown error. *)
Definition strerror (errno : Z) : string :=
  match errno with
  | 1 => "Operation not permitted"
  | 2 => "No such file or directory"
  | 9 => "Bad file descriptor"
  | 13 => "Permission denied"
  | 20 => "Not a directory"
  | 36 => "File name too long"
  | 40 => "Too many levels of symbolic links"
  | _ => String.append "Unknown error " (NilZero.string_of_int (Z.to_int errno))
  end%Z.

(** The exception a failed system call surfaces as: [OSError(errno,
    strerror)], of the subclass Python picks for the error number.  The
    subclasses that play no part here stay [OSError]. *)
Definition os_error (errno : Z) : exn :=
  mk_exn (match errno with
          | 2 => FileNotFoundError
          | 20 => NotADirectoryError
          | 1 | 13 => PermissionError
          | _ => OSError
          end%Z)
         [PInt errno; PStr (strerror errno)].

(** [all(iterable)] on a list of booleans. *)
Definition all (l : list bool) : bool := forallb (fun b => b) l.

Definition newline : string := String (ascii_of_nat 10) EmptyString.

End Py.

(* ===================================================================== *)
(** ** [pathlib] paths (POSIX flavour) *)
(* ===================================================================== *)

Module Pathlib.

(** A path is its root (the empty string for a relative path, ["/"], or
    ["//"] for exactly two leading slashes) and its parts. *)
Record Path : Type := mk_path { root : string; parts : list string }.

Definition is_absolute (p : Path) : bool := negb (String.eqb (root p) "").

(** [s.split("/")] *)
Fixpoint split_slash (s : string) : list string :=
  match s with
  | EmptyString => [EmptyString]
  | String c s' =>
      if Ascii.eqb c "/"%char then EmptyString :: split_slash s'
      else match split_slash s' with
           | [] => [String c EmptyString]
           | h :: t => String c h :: t
           end
  end.

Fixpoint leading_slashes (s : string) : nat :=
  match s with
  | String c s' => if Ascii.eqb c "/"%char then S (leading_slashes s') else 0
  | EmptyString => 0
  end.

(** [Path(s)]: empty components and single dots are dropped, double dots
    are kept. *)
Definition of_string (s : string) : Path :=
  {| root := match leading_slashes s with
             | 0 => ""
             | 2 => "//"
             | _ => "/"
             end;
     parts := List.filter
                (fun c => negb (String.eqb c "") && negb (String.eqb c "."))
                (split_slash s) |}.

(** [p / q] for two paths: an anchored right operand replaces the left. *)
Definition join (p q : Path) : Path :=
  if is_absolute q then q
  else {| root := root p; parts := parts p ++ parts q |}.

(** [p / s] for a string [s]. *)
Definition joinpath (p : Path) (s : string) : Path := join p (of_string s).

(** The child [iterdir] yields for a directory entry [name]. *)
Definition child (p : Path) (name : string) : Path :=
  {| root := root p; parts := parts p ++ [name] |}.

(** [p.name] *)
Definition name (p : Path) : string := List.last (parts p) "".

#[global] Instance Path_eq_dec : EqDecision Path.
Proof. solve_decision. Defined.

End Pathlib.

Import Pathlib.
Infix "</>" := Pathlib.joinpath (at level 40, left associativity).

(* ===================================================================== *)
(** ** The world a command runs in *)
(* ===================================================================== *)

Inductive node_kind : Type := KFile | KDir.

(** How a system call ends: with its answer, or with an error number. *)
Inductive syscall (A : Type) : Type :=
| Ok (a : A)
| Errno (errno : Z).
Arguments Ok {A} a.
Arguments Errno {A} errno.

(** What the commands ask of the file system: [os.stat], which tells the
    kind of the node a path names, and [os.listdir], which tells the names
    in a directory.  Either can fail, for a path that names nothing
    (ENOENT, 2), that cannot be reached (EACCES, 13), whose name is too
    long (ENAMETOOLONG, 36), and so on. *)
Record FileSystem : Type := {
  stat : Path -> syscall node_kind;
  listdir : Path -> syscall (list string);
}.

(** [beneuro_data.config.config] *)
Record Config : Type := {
  LOCAL_PATH : Path;
  REMOTE_PATH : Path;
}.

(** The process state and the collaborators of [cli.py].  A collaborator is
    given by how a call to it ends: [None] when it returns, [Some e] when
    it raises [e].  [rich_print] is [rich.print], likewise: it reads its
    argument as console markup and raises [MarkupError] on text it cannot
    parse, such as a closing tag that nothing opened.  The disk is the one
    the command finds when it starts: validation only reads it, and an
    upload is the last thing its command does. *)
Record World : Type := {
  cwd : Path;
  fs : FileSystem;
  config : Config;
  validate_raw_session :
    Path -> string -> bool -> bool -> bool -> option Py.exn;
  upload_raw_session :
    Path -> string -> Path -> Path -> bool -> bool -> bool -> option Py.exn;
  rename_raw_videos_of_session :
    Path -> string -> bool -> option Py.exn;
  rich_print : string -> option Py.exn;
}.

(** The arguments of one call of [validate_raw_session]. *)
Record validate_call : Type := mk_validate_call {
  vc_session_path : Path;
  vc_subject_name : string;
  vc_check_behavior : bool;
  vc_check_ephys : bool;
  vc_check_videos : bool;
}.

(** The arguments of one call of [upload_raw_session]. *)
Record upload_call : Type := mk_upload_call {
  uc_local_session_path : Path;
  uc_subject_name : string;
  uc_local_root : Path;
  uc_remote_root : Path;
  uc_include_behavior : bool;
  uc_include_ephys : bool;
  uc_include_videos : bool;
}.

(** What a command can be observed to do. *)
Inductive event : Type :=
| EvIsDir (p : Path)
| EvExists (p : Path)
| EvIterdir (p : Path)
| EvValidate (c : validate_call)
| EvUpload (c : upload_call)
| EvRename (session_path : Path) (subject_name : string) (verbose : bool)
| EvPrint (text : string).

(* ===================================================================== *)
(** ** Runs: a trace and how the run ended *)
(* ===================================================================== *)

Inductive outcome (A : Type) : Type :=
| Return (a : A)
| Raise (e : Py.exn).
Arguments Return {A} a.
Arguments Raise {A} e.

Definition io (A : Type) : Type := (list event * outcome A)%type.

Definition trace {A} (m : io A) : list event := fst m.
Definition result {A} (m : io A) : outcome A := snd m.

Definition ret {A} (a : A) : io A := ([], Return a).
Definition raise {A} (e : Py.exn) : io A := ([], Raise e).
Definition emit (ev : event) : io unit := ([ev], Return tt).

Definition bind {A B} (m : io A) (k : A -> io B) : io B :=
  match m with
  | (t, Raise e) => (t, Raise e)
  | (t, Return a) => (t ++ trace (k a), result (k a))
  end.

Declare Scope io_scope.
Delimit Scope io_scope with io.
Notation "x <- m ;; k" := (bind m (fun x => k))
  (at level 100, m at next level, right associativity) : io_scope.
Notation "m ;; k" := (bind m (fun _ => k))
  (at level 100, right associativity) : io_scope.
Open Scope io_scope.

(** [if c: raise e] *)
Definition raise_if (c : bool) (e : Py.exn) : io unit :=
  if c then raise e else ret tt.

(** [for x in l: body(x)] *)
Fixpoint for_each {A} (l : list A) (body : A -> io unit) : io unit :=
  match l with
  | [] => ret tt
  | x :: l' => body x ;; for_each l' body
  end.

(** [try: body / except Exception as e: handler(e) / else: orelse].  Only
    instances of [Exception] reach the handler; what the handler or the
    else-branch raise is not caught. *)
Definition try_except_Exception {A} (body : io A)
    (handler : Py.exn -> io unit) (orelse : io unit) : io unit :=
  match body with
  | (t, Return _) => (t ++ trace orelse, result orelse)
  | (t, Raise e) =>
      if Py.derives_from_Exception (Py.exc_type e)
      then (t ++ trace (handler e), result (handler e))
      else (t, Raise e)
  end.

(** [e.args[0]] *)
Definition args_0 (e : Py.exn) : io Py.value :=
  match Py.args e with
  | v :: _ => ret v
  | [] => raise (Py.exc Py.IndexError "tuple index out of range")
  end.

(* ===================================================================== *)
(** ** File-system queries and calls to the collaborators *)
(* ===================================================================== *)

(** [p.absolute()]: anchors a relative path at the working directory; it
    does not touch the file system. *)
Definition absolute (w : World) (p : Path) : Path :=
  if is_absolute p then p else join (cwd w) p.

(** Whether a path names a directory, and whether it names anything, as
    far as [os.stat] tells: both are false of a path it fails on. *)
Definition names_a_directory (w : World) (p : Path) : bool :=
  match stat (fs w) p with Ok KDir => true | _ => false end.

Definition names_a_node (w : World) (p : Path) : bool :=
  match stat (fs w) p with Ok _ => true | Errno _ => false end.

(** [pathlib._ignore_error]: the errors of [stat] that [is_dir] and
    [exists] take for "no": ENOENT, ENOTDIR, EBADF, ELOOP. *)
Definition ignore_error (errno : Z) : bool :=
  (Z.eqb errno 2 || Z.eqb errno 20 || Z.eqb errno 9 || Z.eqb errno 40)%bool.

(** The error of [stat] on a path that [is_dir] and [exists] do not take
    for "no" but raise. *)
Definition stat_raises (w : World) (p : Path) : option Py.exn :=
  match stat (fs w) p with
  | Errno n => if ignore_error n then None else Some (Py.os_error n)
  | Ok _ => None
  end.

(** [p.is_dir()] and [p.exists()] *)
Definition is_dir (w : World) (p : Path) : io bool :=
  emit (EvIsDir p) ;;
  match stat_raises w p with
  | Some e => raise e
  | None => ret (names_a_directory w p)
  end.

Definition path_exists (w : World) (p : Path) : io bool :=
  emit (EvExists p) ;;
  match stat_raises w p with
  | Some e => raise e
  | None => ret (names_a_node w p)
  end.

(** [p.iterdir()]: the children of a directory, by the names [os.listdir]
    gives; its error is raised as it is. *)
Definition iterdir (w : World) (p : Path) : io (list Path) :=
  emit (EvIterdir p) ;;
  match listdir (fs w) p with
  | Ok names => ret (map (child p) names)
  | Errno n => raise (Py.os_error n)
  end.

(** [rich.print(text)]: the text is printed, unless rendering it raises. *)
Definition print (w : World) (text : string) : io unit :=
  match rich_print w text with
  | Some e => raise e
  | None => emit (EvPrint text)
  end.

(** A call that is logged and then ends the way the collaborator ends. *)
Definition call (ev : event) (ending : option Py.exn) : io unit :=
  emit ev ;;
  match ending with
  | None => ret tt
  | Some e => raise e
  end.

Definition call_validate_raw_session (w : World) (session_path : Path)
    (subject_name : string) (check_behavior check_ephys check_videos : bool)
    : io unit :=
  call (EvValidate (mk_validate_call session_path subject_name
                      check_behavior check_ephys check_videos))
       (validate_raw_session w session_path subject_name
          check_behavior check_ephys check_videos).

Definition call_upload_raw_session (w : World) (local_session_path : Path)
    (subject_name : string) (local_root remote_root : Path)
    (include_behavior include_ephys include_videos : bool) : io unit :=
  call (EvUpload (mk_upload_call local_session_path subject_name
                    local_root remote_root
                    include_behavior include_ephys include_videos))
       (upload_raw_session w local_session_path subject_name
          local_root remote_root
          include_behavior include_ephys include_videos).

Definition call_rename_raw_videos_of_session (w : World)
    (session_path : Path) (subject_name : string) (verbose : bool) : io unit :=
  call (EvRename session_path subject_name verbose)
       (rename_raw_videos_of_session w session_path subject_name verbose).

(* ===================================================================== *)
(** ** The commands of [cli.py] *)
(* ===================================================================== *)

Definition only_raw_supported : Py.exn :=
  Py.exc Py.NotImplementedError "Sorry, only raw data is supported for now.".

Definition nothing_to_check : Py.exn :=
  Py.exc Py.ValueError "At least one data type must be checked.".

Definition must_be_a_directory : Py.exn :=
  Py.exc Py.ValueError "Session path must be a directory.".

Definition does_not_exist : Py.exn :=
  Py.exc Py.ValueError "Session path does not exist.".

(** [cli.py], lines 16-68. *)
Definition validate_session (w : World) (session_path : Path)
    (subject_name processing_level : string)
    (check_behavior check_ephys check_videos : bool) : io unit :=
  raise_if (negb (String.eqb processing_level "raw")) only_raw_supported ;;
  raise_if (Py.all [negb check_behavior; negb check_ephys; negb check_videos])
           nothing_to_check ;;
  d <- is_dir w (absolute w session_path) ;;
  raise_if (negb d) must_be_a_directory ;;
  x <- path_exists w (absolute w session_path) ;;
  raise_if (negb x) does_not_exist ;;
  call_validate_raw_session w (absolute w session_path) subject_name
    check_behavior check_ephys check_videos.

(** [cli.py], lines 72-111. *)
Definition rename_videos (w : World) (session_path : Path)
    (subject_name processing_level : string) (verbose : bool) : io unit :=
  raise_if (negb (String.eqb processing_level "raw")) only_raw_supported ;;
  d <- is_dir w (absolute w session_path) ;;
  raise_if (negb d) must_be_a_directory ;;
  x <- path_exists w (absolute w session_path) ;;
  raise_if (negb x) does_not_exist ;;
  call_rename_raw_videos_of_session w (absolute w session_path)
    subject_name verbose.

(** [cli.py], lines 115-165. *)
Definition upload_session (w : World) (local_session_path : Path)
    (subject_name processing_level : string)
    (include_behavior include_ephys include_videos : bool) : io bool :=
  raise_if (negb (String.eqb processing_level "raw")) only_raw_supported ;;
  raise_if (Py.all [negb include_behavior; negb include_ephys;
                    negb include_videos])
           nothing_to_check ;;
  call_upload_raw_session w (absolute w local_session_path) subject_name
    (LOCAL_PATH (config w)) (REMOTE_PATH (config w))
    include_behavior include_ephys include_videos ;;
  ret true.

(** The two lines [validate_sessions] prints. *)
Definition problem_line (session_name : string) (reason : Py.value) : string :=
  String.append "[bold red]Problem with "
    (String.append session_name
       (String.append ": " (String.append (Py.format reason) Py.newline))).

Definition looking_good_line (session_name : string) : string :=
  String.append "[bold green]"
    (String.append session_name
       (String.append " looking good." Py.newline)).

(** The body of the loop of [validate_sessions], lines 205-217. *)
Definition validate_sessions_body (w : World) (subject_name : string)
    (check_behavior check_ephys check_videos : bool) (session_path : Path)
    : io unit :=
  d <- is_dir w session_path ;;
  if d then
    try_except_Exception
      (call_validate_raw_session w session_path subject_name
         check_behavior check_ephys check_videos)
      (fun e =>
         reason <- args_0 e ;;
         print w (problem_line (name session_path) reason))
      (print w (looking_good_line (name session_path)))
  else ret tt.

(** [cli.py], lines 169-217. *)
Definition validate_sessions (w : World)
    (subject_name processing_level : string)
    (check_behavior check_ephys check_videos : bool) : io unit :=
  raise_if (negb (String.eqb processing_level "raw")) only_raw_supported ;;
  raise_if (Py.all [negb check_behavior; negb check_ephys; negb check_videos])
           nothing_to_check ;;
  let subject_path :=
    LOCAL_PATH (config w) </> processing_level </> subject_name in
  entries <- iterdir w subject_path ;;
  for_each entries
    (validate_sessions_body w subject_name
       check_behavior check_ephys check_videos).

(* ===================================================================== *)
(** ** Reading a trace *)
(* ===================================================================== *)

(** The calls of [validate_raw_session] in a trace, in order. *)
Definition validated (t : list event) : list validate_call :=
  flat_map (fun ev => match ev with EvValidate c => [c] | _ => [] end) t.

(** The calls of [upload_raw_session] in a trace, in order. *)
Definition uploaded (t : list event) : list upload_call :=
  flat_map (fun ev => match ev with EvUpload c => [c] | _ => [] end) t.

(** The texts printed, in order. *)
Definition printed (t : list event) : list string :=
  flat_map (fun ev => match ev with EvPrint s => [s] | _ => [] end) t.

(** The paths a trace asked the file system about. *)
Definition queried (t : list event) : list Path :=
  flat_map (fun ev => match ev with
                      | EvIsDir p | EvExists p | EvIterdir p => [p]
                      | _ => []
                      end) t.

(* ===================================================================== *)
(** ** What a batch is expected to report *)
(* ===================================================================== *)

(** The directory [validate_sessions] lists. *)
Definition subject_path (w : World) (processing_level subject_name : string)
    : Path :=
  LOCAL_PATH (config w) </> processing_level </> subject_name.

(** The entries directly under a path: its children when it can be
    listed, nothing otherwise. *)
Definition entries_under (w : World) (p : Path) : list Path :=
  match listdir (fs w) p with
  | Ok names => map (child p) names
  | Errno _ => []
  end.

(** Those of the entries that are directories. *)
Definition session_directories (w : World) (p : Path) : list Path :=
  List.filter (names_a_directory w) (entries_under w p).

(** An exception the handler of the batch can report: an instance of
    [Exception] that carries at least one argument. *)
Definition reportable (e : Py.exn) : bool :=
  Py.derives_from_Exception (Py.exc_type e)
  && match Py.args e with [] => false | _ :: _ => true end.

(** The verdict on one session. *)
Inductive verdict : Type :=
| Passed
| Failed (reason : Py.value).

Definition verdict_of (ending : option Py.exn) : verdict :=
  match ending with
  | None => Passed
  | Some e => Failed (List.hd (Py.PStr "") (Py.args e))
  end.

Definition report_line (session_name : string) (v : verdict) : string :=
  match v with
  | Passed => looking_good_line session_name
  | Failed reason => problem_line session_name reason
  end.

Section Batch.

Variable w : World.
Variable subject_name : string.
Variables check_behavior check_ephys check_videos : bool.

(** How validating one session ends. *)
Definition ending_of (session_path : Path) : option Py.exn :=
  validate_raw_session w session_path subject_name
    check_behavior check_ephys check_videos.

(** A session whose validation passes, or fails with an exception the
    handler can report. *)
Definition settles (session_path : Path) : bool :=
  match ending_of session_path with
  | None => true
  | Some e => reportable e
  end.

Definition call_for (session_path : Path) : validate_call :=
  mk_validate_call session_path subject_name
    check_behavior check_ephys check_videos.

Definition line_for (session_path : Path) : string :=
  report_line (name session_path) (verdict_of (ending_of session_path)).

(** What one entry contributes to the trace of a batch, by itself. *)
Definition entry_trace (entry : Path) : list event :=
  EvIsDir entry ::
  (if names_a_directory w entry
   then [EvValidate (call_for entry); EvPrint (line_for entry)]
   else []).

(** An entry whose turn in the loop ends without an exception: [is_dir]
    answers, and when the entry is a directory its validation settles and
    its line is printed. *)
Definition completes (entry : Path) : bool :=
  match stat_raises w entry with
  | Some _ => false
  | None =>
      if names_a_directory w entry
      then settles entry
           && match rich_print w (line_for entry) with
              | None => true
              | Some _ => false
              end
      else true
  end.

End Batch.

(* ===================================================================== *)
(** ** The transfer engine (design text, section 4.4) *)
(* ===================================================================== *)

Module TransferEngine.

#[global] Instance byte_eq_dec : EqDecision Byte.byte := Byte.byte_eq_dec.

#[global] Instance Path_countable : Countable Path.
Proof.
  refine (inj_countable' (fun p => (root p, parts p))
            (fun rp => mk_path (fst rp) (snd rp)) _).
  intros [r ps]. reflexivity.
Defined.

Inductive modality : Type := Behavior | Ephys | Video.

#[global] Instance modality_eq_dec : EqDecision modality.
Proof. solve_decision. Defined.

(** A file of the local session tree: the modality it belongs to, its path
    below the session directory, and its bytes. *)
Record local_file : Type := {
  lf_modality : modality;
  lf_relative : list string;
  lf_data : list Byte.byte;
}.

(** The files below the remote root, by path.  Directories are implied by
    the files they hold, which is how "created on demand" shows. *)
Abbreviation remote_tree := (gmap Path (list Byte.byte)).

Inductive transfer_error : Type :=
| TransferConflictError (destination : Path)
| SessionOutsideLocalRoot.

Fixpoint strip_prefix (pre l : list string) : option (list string) :=
  match pre, l with
  | [], _ => Some l
  | x :: pre', y :: l' => if decide (x = y) then strip_prefix pre' l' else None
  | _ :: _, [] => None
  end.

(** Modelled from the spec: step 1 of the algorithm of [upload_raw_session]
    ([data_transfer] is not among the sources), "compute the session's path
    relative to local_root". *)
Definition relative_to (p base : Path) : option (list string) :=
  if decide (root p = root base) then strip_prefix (parts base) (parts p)
  else None.

(** Modelled from the spec: step 3, "the mirrored destination path under
    remote_root + the same relative layout". *)
Definition destination (remote_root : Path) (layout : list string)
    (f : local_file) : Path :=
  mk_path (root remote_root) (parts remote_root ++ layout ++ lf_relative f).

Definition selected (include_behavior include_ephys include_videos : bool)
    (m : modality) : bool :=
  match m with
  | Behavior => include_behavior
  | Ephys => include_ephys
  | Video => include_videos
  end.

(** Modelled from the spec: step 2, "for each selected modality, enumerate
    the modality's files under the local session tree". *)
Definition selected_files
    (include_behavior include_ephys include_videos : bool)
    (tree : list local_file) : list local_file :=
  flat_map
    (fun m =>
       if selected include_behavior include_ephys include_videos m
       then List.filter (fun f => bool_decide (lf_modality f = m)) tree
       else [])
    [Behavior; Ephys; Video].

(** Modelled from the spec: step 4, the copy policy of [upload_raw_session]:
    "if the destination file does not exist, copy it.  If it exists,
    compare for equality - if equal, skip; if different, this is a
    conflict".  The boolean tells whether the file was newly copied. *)
Definition copy_file (remote : remote_tree) (dest : Path)
    (data : list Byte.byte) : remote_tree * (transfer_error + bool) :=
  match remote !! dest with
  | None => (<[dest := data]> remote, inr true)
  | Some present =>
      if decide (present = data) then (remote, inr false)
      else (remote, inl (TransferConflictError dest))
  end.

(** Modelled from the spec: step 6, "any single file failure aborts"; what
    was copied before the failure stays. *)
Fixpoint copy_all (remote_root : Path) (layout : list string)
    (files : list local_file) (remote : remote_tree) (copied : nat)
    : remote_tree * (transfer_error + nat) :=
  match files with
  | [] => (remote, inr copied)
  | f :: rest =>
      match copy_file remote (destination remote_root layout f) (lf_data f) with
      | (remote', inr newly) =>
          copy_all remote_root layout rest remote'
            (if newly then S copied else copied)
      | (remote', inl err) => (remote', inl err)
      end
  end.

(** Modelled from the spec: [upload_raw_session] of [data_transfer], which
    is not among the sources, following the contract and the algorithm of
    section 4.4.  [tree] is what the local disk holds below the session
    path; the result is the remote tree after the run and either the error
    that stopped it or the number of files newly copied.  The design text
    leaves open what a session outside the local root yields; here it is a
    failure that copies nothing. *)
Definition upload_raw_session (tree : list local_file)
    (local_session_path : Path) (subject_name : string)
    (local_root remote_root : Path)
    (include_behavior include_ephys include_videos : bool)
    (remote : remote_tree) : remote_tree * (transfer_error + nat) :=
  match relative_to local_session_path local_root with
  | None => (remote, inl SessionOutsideLocalRoot)
  | Some layout =>
      copy_all remote_root layout
        (selected_files include_behavior include_ephys include_videos tree)
        remote 0
  end.

End TransferEngine.

(* ===================================================================== *)
(** ** A laboratory disk to run the commands on *)
(* ===================================================================== *)

Module Lab.

Definition subject_dir : Path := of_string "/data/raw/M017".
Definition monday : Path := child subject_dir "M017_2023_01_05_10_30".
Definition tuesday : Path := child subject_dir "M017_2023_01_06_09_00".
Definition notes : Path := child subject_dir "notes.txt".

(** A subject whose directory exists but may not be read. *)
Definition locked_dir : Path := of_string "/data/raw/M019".

(** A name of 256 letters, one more than a directory entry may have. *)
Definition too_long : Path :=
  of_string (string_of_list_ascii (List.repeat "x"%char 256)).

Definition disk : FileSystem :=
  {| stat p :=
       if existsb (fun part => Nat.ltb 255 (String.length part)) (parts p)
       then Errno 36
       else if decide (p = of_string "/data") then Ok KDir
       else if decide (p = of_string "/data/raw") then Ok KDir
       else if decide (p = subject_dir) then Ok KDir
       else if decide (p = locked_dir) then Ok KDir
       else if decide (p = monday) then Ok KDir
       else if decide (p = tuesday) then Ok KDir
       else if decide (p = notes) then Ok KFile
       else Errno 2;
     listdir p :=
       if decide (p = subject_dir)
       then Ok ["M017_2023_01_05_10_30"; "notes.txt"; "M017_2023_01_06_09_00"]
       else if decide (p = locked_dir) then Errno 13
       else if decide (p = notes) then Errno 20
       else if decide (p = of_string "/data") then Ok ["raw"]
       else if decide (p = of_string "/data/raw") then Ok ["M017"; "M019"]
       else if decide (p = monday) then Ok []
       else if decide (p = tuesday) then Ok []
       else Errno 2 |}.

Definition settings : Config :=
  {| LOCAL_PATH := of_string "/data"; REMOTE_PATH := of_string "/mnt/remote" |}.

(** The laboratory with a validator that ends as [validator] says and a
    console that renders as [console] says. *)
Definition world_on (validator : Path -> option Py.exn)
    (console : string -> option Py.exn) : World :=
  {| cwd := of_string "/home/user";
     fs := disk;
     config := settings;
     validate_raw_session p _ _ _ _ := validator p;
     upload_raw_session _ _ _ _ _ _ _ := None;
     rename_raw_videos_of_session _ _ _ := None;
     rich_print := console |}.

(** The laboratory with a console that renders every line. *)
Definition world (validator : Path -> option Py.exn) : World :=
  world_on validator (fun _ => None).

(** Monday's session lacks its ephys folder. *)
Definition monday_incomplete (p : Path) : option Py.exn :=
  if decide (p = monday) then Some (Py.exc Py.ValueError "No ephys folder")
  else None.

(** The operator presses Ctrl-C while Monday's session is validated. *)
Definition monday_interrupted (p : Path) : option Py.exn :=
  if decide (p = monday) then Some (Py.mk_exn Py.KeyboardInterrupt [])
  else None.

(** Validation of Monday's session leaves through [sys.exit]. *)
Definition monday_exits (p : Path) : option Py.exn :=
  if decide (p = monday) then Some (Py.mk_exn Py.SystemExit [Py.PInt 1])
  else None.

(** Validation of Monday's session raises a bare [ValueError()]. *)
Definition monday_bare (p : Path) : option Py.exn :=
  if decide (p = monday) then Some (Py.mk_exn Py.ValueError [])
  else None.

(** Monday's session holds an empty file, and the reason names it in
    square brackets. *)
Definition empty_file_reason : string :=
  "File [/data/raw/M017/x.bin] is empty".

Definition monday_empty_file (p : Path) : option Py.exn :=
  if decide (p = monday) then Some (Py.exc Py.ValueError empty_file_reason)
  else None.

Definition markup_error : Py.exn :=
  Py.exc (Py.OtherException "MarkupError")
    "closing tag '[/data/raw/M017/x.bin]' at position 51 doesn't match any open tag".

(** A console that takes the bracketed path of that reason for a closing
    tag. *)
Definition strict_console (text : string) : option Py.exn :=
  if decide (text = problem_line "M017_2023_01_05_10_30"
                      (Py.PStr empty_file_reason))
  then Some markup_error
  else None.

Definition bytes_of (s : string) : list Byte.byte := list_byte_of_string s.

(** A session tree and a remote that already holds a different log. *)
Definition tree : list TransferEngine.local_file :=
  [ {| TransferEngine.lf_modality := TransferEngine.Behavior;
       TransferEngine.lf_relative := ["behavior"; "log.txt"];
       TransferEngine.lf_data := bytes_of "trial 1" |};
    {| TransferEngine.lf_modality := TransferEngine.Ephys;
       TransferEngine.lf_relative := ["ephys"; "probe0.bin"];
       TransferEngine.lf_data := bytes_of "spikes" |} ].

Definition remote_log : Path :=
  of_string "/mnt/remote/raw/M017/M017_2023_01_05_10_30/behavior/log.txt".

Definition remote : gmap Path (list Byte.byte) :=
  {[ remote_log := bytes_of "trial 0" ]}.

End Lab.

(* ===================================================================== *)
(** ** Reading a trace: the renaming calls *)
(* ===================================================================== *)

(** The arguments of one call of [rename_raw_videos_of_session]. *)
Record rename_call : Type := mk_rename_call {
  rc_session_path : Path;
  rc_subject_name : string;
  rc_verbose : bool;
}.

(** The calls of [rename_raw_videos_of_session] in a trace, in order. *)
Definition renamed (t : list event) : list rename_call :=
  flat_map (fun ev => match ev with
                      | EvRename p s verbose => [mk_rename_call p s verbose]
                      | _ => []
                      end) t.

(* ===================================================================== *)
(** ** Laws of runs *)
(* ===================================================================== *)

Lemma bind_Return {A B} (t : list event) (a : A) (k : A -> io B) :
  bind (t, Return a) k = (t ++ trace (k a), result (k a)).
Proof. reflexivity. Qed.

Lemma bind_Raise {A B} (t : list event) (e : Py.exn) (k : A -> io B) :
  bind (t, Raise e) k = (t, Raise e).
Proof. reflexivity. Qed.

Lemma bind_ret_l {A B} (a : A) (k : A -> io B) : bind (ret a) k = k a.
Proof. unfold bind, ret. cbn. destruct (k a); reflexivity. Qed.

Lemma bind_emit {B} (ev : event) (k : unit -> io B) :
  bind (emit ev) k = (ev :: trace (k tt), result (k tt)).
Proof. reflexivity. Qed.

Lemma raise_if_true (e : Py.exn) : raise_if true e = raise e.
Proof. reflexivity. Qed.

Lemma raise_if_false (e : Py.exn) : raise_if false e = ret tt.
Proof. reflexivity. Qed.

Lemma not_raw (processing_level : string) :
  processing_level <> "raw" ->
  negb (String.eqb processing_level "raw") = true.
Proof.
  intros Hne. apply negb_true_iff. apply String.eqb_neq. exact Hne.
Qed.

Lemma validated_app (t1 t2 : list event) :
  validated (t1 ++ t2) = validated t1 ++ validated t2.
Proof. unfold validated. apply flat_map_app. Qed.

Lemma printed_app (t1 t2 : list event) :
  printed (t1 ++ t2) = printed t1 ++ printed t2.
Proof. unfold printed. apply flat_map_app. Qed.

(** A path that does not exist is not a directory. *)
Lemma directory_is_node (w : World) (p : Path) :
  names_a_directory w p = true -> names_a_node w p = true.
Proof.
  unfold names_a_directory, names_a_node.
  destruct (stat (fs w) p) as [[|]|n]; intros H; (reflexivity || discriminate).
Qed.

Lemma not_a_directory (w : World) (p : Path) :
  names_a_node w p = false \/ names_a_directory w p = false ->
  names_a_directory w p = false.
Proof.
  intros [Hnode | Hdir]; [|exact Hdir].
  destruct (names_a_directory w p) eqn:Hd; [|reflexivity].
  apply directory_is_node in Hd. congruence.
Qed.

(* ===================================================================== *)
(** ** The guards of the commands *)
(* ===================================================================== *)

(** C1.  With a processing level other than ["raw"], each of the four
    commands raises [NotImplementedError] and its trace is empty: no
    query of the file system, no validation, upload or renaming, no
    output came before. *)
Theorem only_raw_is_supported (w : World) (session_path : Path)
    (subject_name processing_level : string) (b e v verbose : bool) :
  processing_level <> "raw" ->
  validate_session w session_path subject_name processing_level b e v
    = ([], Raise only_raw_supported)
  /\ validate_sessions w subject_name processing_level b e v
    = ([], Raise only_raw_supported)
  /\ upload_session w session_path subject_name processing_level b e v
    = ([], Raise only_raw_supported)
  /\ rename_videos w session_path subject_name processing_level verbose
    = ([], Raise only_raw_supported).
Proof.
  intros Hne. apply not_raw in Hne.
  unfold validate_session, validate_sessions, upload_session, rename_videos.
  rewrite Hne, raise_if_true.
  repeat split; reflexivity.
Qed.

Lemma only_raw_is_supported_witness :
  "processed" <> "raw"
  /\ validate_sessions (Lab.world Lab.monday_incomplete) "M017" "processed"
       true true true
     = ([], Raise only_raw_supported).
Proof.
  assert (Hne : "processed" <> "raw") by discriminate.
  split; [exact Hne|].
  exact (proj1 (proj2 (only_raw_is_supported
                         (Lab.world Lab.monday_incomplete) Lab.monday
                         "M017" "processed" true true true false Hne))).
Defined.

(** C2.  At level ["raw"] with the three modality flags off,
    [validate_session], [upload_session] and [validate_sessions] raise
    [ValueError]; the trace is empty, so neither [validate_raw_session] nor
    [upload_raw_session] was called, and the run did not return. *)
Theorem empty_selection_is_an_error (w : World) (session_path : Path)
    (subject_name : string) :
  validate_session w session_path subject_name "raw" false false false
    = ([], Raise nothing_to_check)
  /\ upload_session w session_path subject_name "raw" false false false
    = ([], Raise nothing_to_check)
  /\ validate_sessions w subject_name "raw" false false false
    = ([], Raise nothing_to_check)
  /\ Py.exc_type nothing_to_check = Py.ValueError.
Proof. repeat split; reflexivity. Qed.

Lemma some_flag_on (b e v : bool) :
  b = true \/ e = true \/ v = true ->
  Py.all [negb b; negb e; negb v] = false.
Proof.
  intros [-> | [-> | ->]]; cbn; [reflexivity | | ].
  - destruct b; reflexivity.
  - destruct b, e; reflexivity.
Qed.

Lemma some_flag_on_inv (b e v : bool) :
  Py.all [negb b; negb e; negb v] = false ->
  b = true \/ e = true \/ v = true.
Proof.
  destruct b; [tauto|]. destruct e; [tauto|]. destruct v; [tauto|].
  discriminate.
Qed.

(** [validate_session] at level ["raw"], case by case on the flags and on
    what [stat] says of the session path. *)
Lemma validate_session_raw (w : World) (p : Path) (subject_name : string)
    (b e v : bool) :
  validate_session w p subject_name "raw" b e v =
    if Py.all [negb b; negb e; negb v] then ([], Raise nothing_to_check)
    else match stat_raises w (absolute w p) with
         | Some ex => ([EvIsDir (absolute w p)], Raise ex)
         | None =>
             if names_a_directory w (absolute w p)
             then ([EvIsDir (absolute w p); EvExists (absolute w p);
                    EvValidate (mk_validate_call (absolute w p)
                                  subject_name b e v)],
                   match validate_raw_session w (absolute w p)
                           subject_name b e v with
                   | None => Return tt
                   | Some ex => Raise ex
                   end)
             else ([EvIsDir (absolute w p)], Raise must_be_a_directory)
         end.
Proof.
  unfold validate_session, is_dir, path_exists, call_validate_raw_session,
    call, stat_raises, names_a_directory, names_a_node.
  destruct (Py.all _); [reflexivity|].
  destruct (stat (fs w) (absolute w p)) as [[|]|n]; try reflexivity.
  - destruct (validate_raw_session w _ _ _ _ _); reflexivity.
  - destruct (ignore_error n); reflexivity.
Qed.

(** [rename_videos] at level ["raw"]. *)
Lemma rename_videos_raw (w : World) (p : Path) (subject_name : string)
    (verbose : bool) :
  rename_videos w p subject_name "raw" verbose =
    match stat_raises w (absolute w p) with
    | Some ex => ([EvIsDir (absolute w p)], Raise ex)
    | None =>
        if names_a_directory w (absolute w p)
        then ([EvIsDir (absolute w p); EvExists (absolute w p);
               EvRename (absolute w p) subject_name verbose],
              match rename_raw_videos_of_session w (absolute w p)
                      subject_name verbose with
              | None => Return tt
              | Some ex => Raise ex
              end)
        else ([EvIsDir (absolute w p)], Raise must_be_a_directory)
    end.
Proof.
  unfold rename_videos, is_dir, path_exists,
    call_rename_raw_videos_of_session, call, stat_raises,
    names_a_directory, names_a_node.
  destruct (stat (fs w) (absolute w p)) as [[|]|n]; try reflexivity.
  - destruct (rename_raw_videos_of_session w _ _ _); reflexivity.
  - destruct (ignore_error n); reflexivity.
Qed.

(** A command stopped at a guard has an empty trace. *)
Lemma validate_session_not_raw (w : World) (p : Path)
    (subject_name processing_level : string) (b e v : bool) :
  processing_level <> "raw" ->
  validate_session w p subject_name processing_level b e v
    = ([], Raise only_raw_supported).
Proof.
  intros Hne. unfold validate_session.
  rewrite (not_raw _ Hne). reflexivity.
Qed.

Lemma rename_videos_not_raw (w : World) (p : Path)
    (subject_name processing_level : string) (verbose : bool) :
  processing_level <> "raw" ->
  rename_videos w p subject_name processing_level verbose
    = ([], Raise only_raw_supported).
Proof.
  intros Hne. unfold rename_videos.
  rewrite (not_raw _ Hne). reflexivity.
Qed.

(** Where [stat] answers, [is_dir] and [exists] raise nothing. *)
Lemma directory_stat_answers (w : World) (p : Path) :
  names_a_directory w p = true -> stat_raises w p = None.
Proof.
  unfold names_a_directory, stat_raises.
  destruct (stat (fs w) p) as [[|]|n]; intros H; (reflexivity || discriminate).
Qed.

(** What an exception of [stat] looks like: an [OSError] with the error
    number first. *)
Lemma stat_raises_os_error (w : World) (p : Path) (ex : Py.exn) :
  stat_raises w p = Some ex ->
  exists errno,
    stat (fs w) p = Errno errno /\ ignore_error errno = false
    /\ ex = Py.os_error errno.
Proof.
  unfold stat_raises. destruct (stat (fs w) p) as [k|n]; [discriminate|].
  destruct (ignore_error n) eqn:Hn; [discriminate|].
  intros [= <-]. exists n. repeat split; assumption.
Qed.

(** No error of the system is one of the errors the commands raise
    themselves. *)
Lemma os_error_not_a_guard_error (errno : Z) :
  Py.os_error errno <> only_raw_supported
  /\ Py.os_error errno <> nothing_to_check
  /\ Py.os_error errno <> must_be_a_directory
  /\ Py.os_error errno <> does_not_exist.
Proof.
  unfold Py.os_error, only_raw_supported, nothing_to_check,
    must_be_a_directory, does_not_exist, Py.exc.
  repeat split; intros H; inversion H.
Qed.

Lemma os_error_class (errno : Z) :
  Py.exc_type (Py.os_error errno) <> Py.ValueError
  /\ Py.derives_from_Exception (Py.exc_type (Py.os_error errno)) = true.
Proof.
  unfold Py.os_error. cbn [Py.exc_type].
  split;
    repeat match goal with
           | |- context [match ?x with _ => _ end] => destruct x
           end; (discriminate || reflexivity).
Qed.

(* ===================================================================== *)
(** ** The session path of [validate_session] *)
(* ===================================================================== *)

(** C5 (as amended).  When [is_dir()] answers [False] on the session path,
    which is the case when the path names nothing and when it names
    something other than a directory, [validate_session] raises at once,
    after at most the one [is_dir] query, and [validate_raw_session] is
    never called.  The exception is a [ValueError] when the processing
    level is ["raw"]; with any other level it is the [NotImplementedError]
    of the first guard.  When [os.stat] fails on the path with an error
    that [is_dir()] does not swallow (a name that is too long, a
    directory that may not be searched), the command at level ["raw"] with
    a modality selected raises that [OSError] instead, and validates
    nothing either. *)
Theorem validate_session_rejects_bad_path (w : World) (p : Path)
    (subject_name processing_level : string) (b e v : bool) :
  names_a_node w (absolute w p) = false
  \/ names_a_directory w (absolute w p) = false ->
  let run := validate_session w p subject_name processing_level b e v in
  validated (trace run) = []
  /\ trace run `prefix_of` [EvIsDir (absolute w p)]
  /\ (processing_level <> "raw" -> result run = Raise only_raw_supported)
  /\ (processing_level = "raw" ->
      stat_raises w (absolute w p) = None
      \/ (b = false /\ e = false /\ v = false) ->
      exists msg, result run = Raise (Py.exc Py.ValueError msg))
  /\ (processing_level = "raw" ->
      b = true \/ e = true \/ v = true ->
      forall ex,
        stat_raises w (absolute w p) = Some ex ->
        result run = Raise ex /\ Py.exc_type ex <> Py.ValueError).
Proof.
  intros Hbad run. subst run. apply not_a_directory in Hbad.
  destruct (String.eqb_spec processing_level "raw") as [-> | Hne].
  - rewrite validate_session_raw, Hbad.
    destruct (Py.all [negb b; negb e; negb v]) eqn:Hall.
    + cbn. split; [reflexivity|]. split; [apply prefix_nil|].
      split; [congruence|]. split; [intros _ _; eexists; reflexivity|].
      intros _ Hflag. rewrite (some_flag_on _ _ _ Hflag) in Hall.
      discriminate.
    + destruct (stat_raises w (absolute w p)) as [ex|] eqn:Hstat; cbn.
      * split; [reflexivity|]. split; [reflexivity|].
        split; [congruence|]. split.
        -- intros _ [Hnone | (-> & -> & ->)]; discriminate.
        -- intros _ _ ex' [= <-]. split; [reflexivity|].
           apply stat_raises_os_error in Hstat as (n & _ & Hn & ->).
           apply os_error_class.
      * split; [reflexivity|]. split; [reflexivity|].
        split; [congruence|].
        split; [intros _ _; eexists; reflexivity | discriminate].
  - rewrite (validate_session_not_raw _ _ _ _ _ _ _ Hne). cbn.
    split; [reflexivity|]. split; [apply prefix_nil|].
    split; [reflexivity|]. split; congruence.
Qed.

Lemma validate_session_rejects_bad_path_witness :
  names_a_directory (Lab.world Lab.monday_incomplete)
    (absolute (Lab.world Lab.monday_incomplete) Lab.notes) = false
  /\ exists msg,
       result (validate_session (Lab.world Lab.monday_incomplete) Lab.notes
                 "M017" "raw" true true true)
         = Raise (Py.exc Py.ValueError msg).
Proof.
  assert (Hfile : names_a_directory (Lab.world Lab.monday_incomplete)
                    (absolute (Lab.world Lab.monday_incomplete) Lab.notes)
                  = false) by reflexivity.
  split; [exact Hfile|].
  exact (proj1 (proj2 (proj2 (proj2
           (validate_session_rejects_bad_path
              (Lab.world Lab.monday_incomplete) Lab.notes "M017" "raw"
              true true true (or_intror Hfile)))))
           eq_refl (or_introl eq_refl)).
Defined.

(** C5, as stated, fails.  The processing level is tested before the
    session path: on a path that does not exist, at level ["processed"],
    the command raises [NotImplementedError].  And [is_dir()] raises what
    [os.stat] raises, unless it is one of four errors: a name of 256
    letters does not exist, and at level ["raw"] it gets
    [OSError(36, "File name too long")].  Neither is a [ValueError]. *)
Lemma validate_session_rejects_bad_path_counterexample :
  let w := Lab.world Lab.monday_incomplete in
  names_a_node w (absolute w (of_string "nowhere")) = false
  /\ validate_session w (of_string "nowhere") "M017" "processed"
       true true true
     = ([], Raise (Py.exc Py.NotImplementedError
                     "Sorry, only raw data is supported for now."))
  /\ Py.NotImplementedError <> Py.ValueError
  /\ names_a_node w (absolute w Lab.too_long) = false
  /\ result (validate_session w Lab.too_long "M017" "raw" true true true)
     = Raise (Py.mk_exn Py.OSError
                [Py.PInt 36; Py.PStr "File name too long"])
  /\ Py.OSError <> Py.ValueError.
Proof.
  cbv zeta. split; [reflexivity|]. split; [reflexivity|].
  split; [discriminate|]. split; [vm_compute; reflexivity|].
  split; [vm_compute; reflexivity | discriminate].
Qed.

(** C10 (as amended).  In [validate_session] and [rename_videos] the
    branch that raises [ValueError("Session path does not exist.")] is
    never taken: [exists()] is only asked of a path on which [is_dir()]
    has just answered [True], so it answers [True]; a run that does end
    with that exception ends right after the collaborator call it came
    out of.  A session path on which [is_dir()] answers [False], one that
    does not exist included, gets
    [ValueError("Session path must be a directory.")] in every run that
    comes as far as the path checks: at level ["raw"], and for
    [validate_session] with a modality selected.  A path on which
    [os.stat] fails with an error that [is_dir()] raises gets that error
    there. *)
Theorem does_not_exist_is_unreachable (w : World) (p : Path)
    (subject_name processing_level : string) (b e v verbose : bool) :
  let vs := validate_session w p subject_name processing_level b e v in
  let rv := rename_videos w p subject_name processing_level verbose in
  (forall q, In (EvExists q) (trace vs) ->
             names_a_node w q = true /\ stat_raises w q = None)
  /\ (forall q, In (EvExists q) (trace rv) ->
                names_a_node w q = true /\ stat_raises w q = None)
  /\ (result vs = Raise does_not_exist ->
      exists t c, trace vs = t ++ [EvValidate c])
  /\ (result rv = Raise does_not_exist ->
      exists t, trace rv = t ++ [EvRename (absolute w p) subject_name verbose])
  /\ (names_a_directory w (absolute w p) = false ->
      stat_raises w (absolute w p) = None ->
      (b = true \/ e = true \/ v = true ->
       validate_session w p subject_name "raw" b e v
         = ([EvIsDir (absolute w p)], Raise must_be_a_directory))
      /\ rename_videos w p subject_name "raw" verbose
         = ([EvIsDir (absolute w p)], Raise must_be_a_directory))
  /\ (forall ex,
         stat_raises w (absolute w p) = Some ex ->
         (b = true \/ e = true \/ v = true ->
          validate_session w p subject_name "raw" b e v
            = ([EvIsDir (absolute w p)], Raise ex))
         /\ rename_videos w p subject_name "raw" verbose
            = ([EvIsDir (absolute w p)], Raise ex)).
Proof.
  cbv zeta.
  assert (Hvs : forall pl,
             (forall q, In (EvExists q)
                          (trace (validate_session w p subject_name pl b e v)) ->
                        names_a_node w q = true /\ stat_raises w q = None)
             /\ (result (validate_session w p subject_name pl b e v)
                   = Raise does_not_exist ->
                 exists t c, trace (validate_session w p subject_name pl b e v)
                             = t ++ [EvValidate c])).
  { intros pl. destruct (String.eqb_spec pl "raw") as [-> | Hne].
    - rewrite validate_session_raw.
      destruct (Py.all _); [cbn; split; [tauto | discriminate]|].
      destruct (stat_raises w (absolute w p)) as [ex|] eqn:Hstat.
      + cbn. split; [intros q [Hq | []]; discriminate|].
        intros [= ->].
        apply stat_raises_os_error in Hstat as (n & _ & _ & Hn).
        symmetry in Hn. apply os_error_not_a_guard_error in Hn. destruct Hn.
      + destruct (names_a_directory w (absolute w p)) eqn:Hdir; cbn.
        * split.
          -- intros q [Hq | [Hq | [Hq | []]]]; try discriminate.
             injection Hq as <-.
             split; [apply directory_is_node, Hdir | exact Hstat].
          -- intros _. exists [EvIsDir (absolute w p); EvExists (absolute w p)].
             eexists. reflexivity.
        * split; [intros q [Hq | []]; discriminate | discriminate].
    - rewrite (validate_session_not_raw _ _ _ _ _ _ _ Hne). cbn.
      split; [tauto | discriminate]. }
  assert (Hrv : forall pl,
             (forall q, In (EvExists q)
                          (trace (rename_videos w p subject_name pl verbose)) ->
                        names_a_node w q = true /\ stat_raises w q = None)
             /\ (result (rename_videos w p subject_name pl verbose)
                   = Raise does_not_exist ->
                 exists t, trace (rename_videos w p subject_name pl verbose)
                           = t ++ [EvRename (absolute w p) subject_name verbose])).
  { intros pl. destruct (String.eqb_spec pl "raw") as [-> | Hne].
    - rewrite rename_videos_raw.
      destruct (stat_raises w (absolute w p)) as [ex|] eqn:Hstat.
      + cbn. split; [intros q [Hq | []]; discriminate|].
        intros [= ->].
        apply stat_raises_os_error in Hstat as (n & _ & _ & Hn).
        symmetry in Hn. apply os_error_not_a_guard_error in Hn. destruct Hn.
      + destruct (names_a_directory w (absolute w p)) eqn:Hdir; cbn.
        * split.
          -- intros q [Hq | [Hq | [Hq | []]]]; try discriminate.
             injection Hq as <-.
             split; [apply directory_is_node, Hdir | exact Hstat].
          -- intros _. exists [EvIsDir (absolute w p); EvExists (absolute w p)].
             reflexivity.
        * split; [intros q [Hq | []]; discriminate | discriminate].
    - rewrite (rename_videos_not_raw _ _ _ _ _ Hne). cbn.
      split; [tauto | discriminate]. }
  split; [apply Hvs|]. split; [apply Hrv|].
  split; [apply Hvs|]. split; [apply Hrv|].
  split.
  - intros Hdir Hstat. split.
    + intros Hflag.
      rewrite validate_session_raw, (some_flag_on _ _ _ Hflag), Hstat, Hdir.
      reflexivity.
    + rewrite rename_videos_raw, Hstat, Hdir. reflexivity.
  - intros ex Hstat. split.
    + intros Hflag.
      rewrite validate_session_raw, (some_flag_on _ _ _ Hflag), Hstat.
      reflexivity.
    + rewrite rename_videos_raw, Hstat. reflexivity.
Qed.

(** C10, as stated, fails in its second half: a session path that does not
    exist does not always get
    [ValueError("Session path must be a directory.")].  The guards that
    come first answer before the path is looked at, and a name that is too
    long makes [is_dir()] itself raise. *)
Lemma does_not_exist_is_unreachable_counterexample :
  let w := Lab.world Lab.monday_incomplete in
  names_a_node w (absolute w (of_string "nowhere")) = false
  /\ result (validate_session w (of_string "nowhere") "M017" "processed"
               true true true) = Raise only_raw_supported
  /\ result (rename_videos w (of_string "nowhere") "M017" "processed" false)
     = Raise only_raw_supported
  /\ result (validate_session w (of_string "nowhere") "M017" "raw"
               false false false) = Raise nothing_to_check
  /\ names_a_node w (absolute w Lab.too_long) = false
  /\ result (rename_videos w Lab.too_long "M017" "raw" false)
     = Raise (Py.os_error 36)
  /\ only_raw_supported <> must_be_a_directory
  /\ nothing_to_check <> must_be_a_directory
  /\ Py.os_error 36 <> must_be_a_directory.
Proof.
  cbv zeta. split; [reflexivity|]. split; [reflexivity|].
  split; [reflexivity|]. split; [reflexivity|].
  split; [vm_compute; reflexivity|]. split; [vm_compute; reflexivity|].
  repeat split; discriminate.
Qed.

(* ===================================================================== *)
(** ** [upload_session] *)
(* ===================================================================== *)

(** [upload_session] at level ["raw"] with something selected: one call,
    nothing else. *)
Lemma upload_session_raw (w : World) (p : Path) (subject_name : string)
    (b e v : bool) :
  b = true \/ e = true \/ v = true ->
  upload_session w p subject_name "raw" b e v =
    ([EvUpload (mk_upload_call (absolute w p) subject_name
                  (LOCAL_PATH (config w)) (REMOTE_PATH (config w)) b e v)],
     match upload_raw_session w (absolute w p) subject_name
             (LOCAL_PATH (config w)) (REMOTE_PATH (config w)) b e v with
     | None => Return true
     | Some ex => Raise ex
     end).
Proof.
  intros Hflag. unfold upload_session, call_upload_raw_session, call.
  rewrite (some_flag_on _ _ _ Hflag).
  destruct (upload_raw_session w _ _ _ _ _ _ _); reflexivity.
Qed.

(** C6.  At level ["raw"] with at least one modality included,
    [upload_session] does one thing: it calls [upload_raw_session].  The
    trace holds no call of [validate_raw_session] and no query of the file
    system, so the session path is neither validated nor checked for
    existence; the command ends the way [upload_raw_session] ends. *)
Theorem upload_session_does_not_validate (w : World) (p : Path)
    (subject_name : string) (b e v : bool) :
  b = true \/ e = true \/ v = true ->
  let run := upload_session w p subject_name "raw" b e v in
  uploaded (trace run)
    = [mk_upload_call (absolute w p) subject_name
         (LOCAL_PATH (config w)) (REMOTE_PATH (config w)) b e v]
  /\ validated (trace run) = []
  /\ queried (trace run) = []
  /\ length (trace run) = 1
  /\ result run
     = match upload_raw_session w (absolute w p) subject_name
               (LOCAL_PATH (config w)) (REMOTE_PATH (config w)) b e v with
       | None => Return true
       | Some ex => Raise ex
       end.
Proof.
  intros Hflag run. subst run.
  rewrite (upload_session_raw _ _ _ _ _ _ Hflag).
  repeat split; reflexivity.
Qed.

Lemma upload_session_does_not_validate_witness :
  names_a_node (Lab.world Lab.monday_incomplete)
    (absolute (Lab.world Lab.monday_incomplete) (of_string "nowhere")) = false
  /\ queried (trace (upload_session (Lab.world Lab.monday_incomplete)
                       (of_string "nowhere") "M017" "raw" false true false))
     = [].
Proof.
  split; [reflexivity|].
  exact (proj1 (proj2 (proj2
           (upload_session_does_not_validate
              (Lab.world Lab.monday_incomplete) (of_string "nowhere") "M017"
              false true false (or_intror (or_introl eq_refl)))))).
Defined.

(** C8.  Every call of [upload_raw_session] that [upload_session] makes,
    whatever its arguments, carries [config.LOCAL_PATH] as the local root
    and [config.REMOTE_PATH] as the remote root, as they stand in the
    configuration; the session path and the subject name are passed along
    beside them and take no part in the roots. *)
Theorem upload_session_passes_configured_roots (w : World) (p : Path)
    (subject_name processing_level : string) (b e v : bool)
    (c : upload_call) :
  In c (uploaded (trace (upload_session w p subject_name
                           processing_level b e v))) ->
  uc_local_root c = LOCAL_PATH (config w)
  /\ uc_remote_root c = REMOTE_PATH (config w)
  /\ uc_local_session_path c = absolute w p
  /\ uc_subject_name c = subject_name.
Proof.
  destruct (String.eqb_spec processing_level "raw") as [-> | Hne].
  - destruct (Py.all [negb b; negb e; negb v]) eqn:Hall.
    + unfold upload_session. rewrite Hall. cbn. tauto.
    + apply some_flag_on_inv in Hall as Hflag.
      rewrite (upload_session_raw _ _ _ _ _ _ Hflag). cbn.
      intros [<- | []]. repeat split; reflexivity.
  - unfold upload_session. rewrite (not_raw _ Hne). cbn. tauto.
Qed.

Lemma upload_session_passes_configured_roots_witness :
  In (mk_upload_call Lab.monday "M017"
        (of_string "/data") (of_string "/mnt/remote") true true true)
     (uploaded (trace (upload_session (Lab.world Lab.monday_incomplete)
                         Lab.monday "M017" "raw" true true true)))
  /\ uc_local_root
       (mk_upload_call Lab.monday "M017"
          (of_string "/data") (of_string "/mnt/remote") true true true)
     = LOCAL_PATH Lab.settings.
Proof.
  assert (Hcall :
    In (mk_upload_call Lab.monday "M017"
          (of_string "/data") (of_string "/mnt/remote") true true true)
       (uploaded (trace (upload_session (Lab.world Lab.monday_incomplete)
                           Lab.monday "M017" "raw" true true true))))
    by (left; reflexivity).
  split; [exact Hcall|].
  exact (proj1 (upload_session_passes_configured_roots
                  (Lab.world Lab.monday_incomplete) Lab.monday "M017" "raw"
                  true true true _ Hcall)).
Defined.

(* ===================================================================== *)
(** ** The batch: [validate_sessions] *)
(* ===================================================================== *)

Lemma iterdir_listed (w : World) (p : Path) (names : list string) :
  listdir (fs w) p = Ok names ->
  iterdir w p = ([EvIterdir p], Return (entries_under w p))
  /\ entries_under w p = map (child p) names.
Proof.
  unfold iterdir, entries_under. intros ->. split; reflexivity.
Qed.

Lemma iterdir_fails (w : World) (p : Path) (errno : Z) :
  listdir (fs w) p = Errno errno ->
  iterdir w p = ([EvIterdir p], Raise (Py.os_error errno))
  /\ entries_under w p = [].
Proof.
  unfold iterdir, entries_under. intros ->. split; reflexivity.
Qed.

Section BatchFacts.

Variable w : World.
Variable subject_name : string.
Variables b e v : bool.

Local Abbreviation body := (validate_sessions_body w subject_name b e v).
Local Abbreviation directory := (names_a_directory w).
Local Abbreviation settled := (settles w subject_name b e v).
Local Abbreviation completed := (completes w subject_name b e v).
Local Abbreviation call_of := (call_for subject_name b e v).
Local Abbreviation line_of := (line_for w subject_name b e v).
Local Abbreviation trace_of := (entry_trace w subject_name b e v).

(** An entry that is skipped, or validated and reported. *)
Lemma body_completes (entry : Path) :
  completed entry = true ->
  body entry = (trace_of entry, Return tt).
Proof.
  unfold completes, validate_sessions_body, entry_trace, is_dir, settles,
    line_for, ending_of, call_validate_raw_session, call,
    try_except_Exception, print.
  destruct (stat_raises w entry); [discriminate|].
  destruct (names_a_directory w entry); [|reflexivity].
  intros Hdone. apply andb_true_iff in Hdone as [Hsettles Hprints]. cbn.
  destruct (validate_raw_session w entry subject_name b e v) as [ex|].
  - cbn in *. unfold reportable in Hsettles.
    apply andb_true_iff in Hsettles as [Hexc Hargs]. rewrite Hexc.
    unfold args_0. destruct (Py.args ex) as [|reason rest]; [discriminate|].
    cbn in *.
    destruct (rich_print w (problem_line (name entry) reason));
      [discriminate | reflexivity].
  - cbn in *.
    destruct (rich_print w (looking_good_line (name entry)));
      [discriminate | reflexivity].
Qed.

(** An entry that ends the loop: at its [is_dir] query, or right after its
    validation, before any line of its own. *)
Lemma body_aborts (entry : Path) :
  completed entry = false ->
  exists ex,
    (body entry = ([EvIsDir entry], Raise ex)
     /\ stat_raises w entry = Some ex)
    \/ (body entry = ([EvIsDir entry; EvValidate (call_of entry)], Raise ex)
        /\ directory entry = true).
Proof.
  unfold completes, validate_sessions_body, is_dir, settles, line_for,
    ending_of, call_for, call_validate_raw_session, call,
    try_except_Exception, print.
  destruct (stat_raises w entry) as [ex|].
  { intros _. exists ex. left. split; reflexivity. }
  destruct (names_a_directory w entry); [|discriminate].
  intros Hnot. cbn.
  destruct (validate_raw_session w entry subject_name b e v) as [ex|].
  - cbn in *. unfold reportable in Hnot.
    destruct (Py.derives_from_Exception (Py.exc_type ex)).
    + unfold args_0. destruct (Py.args ex) as [|reason rest].
      * eexists. right. split; reflexivity.
      * cbn in *.
        destruct (rich_print w (problem_line (name entry) reason)) as [ex'|];
          [|discriminate].
        exists ex'. right. split; reflexivity.
    + exists ex. right. split; reflexivity.
  - cbn in *.
    destruct (rich_print w (looking_good_line (name entry))) as [ex'|];
      [|discriminate].
    exists ex'. right. split; reflexivity.
Qed.

Lemma validated_trace_of (entries : list Path) :
  validated (flat_map trace_of entries)
    = map call_of (List.filter directory entries).
Proof.
  induction entries as [|x l IH]; [reflexivity|].
  cbn [flat_map List.filter]. rewrite validated_app, IH.
  unfold entry_trace. destruct (names_a_directory w x); reflexivity.
Qed.

Lemma printed_trace_of (entries : list Path) :
  printed (flat_map trace_of entries)
    = map line_of (List.filter directory entries).
Proof.
  induction entries as [|x l IH]; [reflexivity|].
  cbn [flat_map List.filter]. rewrite printed_app, IH.
  unfold entry_trace. destruct (names_a_directory w x); reflexivity.
Qed.

Lemma validated_entry_trace (x : Path) :
  validated (trace_of x) = if directory x then [call_of x] else [].
Proof.
  unfold entry_trace. destruct (names_a_directory w x); reflexivity.
Qed.

Lemma printed_entry_trace (x : Path) :
  printed (trace_of x) = if directory x then [line_of x] else [].
Proof.
  unfold entry_trace. destruct (names_a_directory w x); reflexivity.
Qed.

(** The loop over entries that all complete, followed by anything: the
    trace is the entries' own traces one after the other, and then what
    follows. *)
Lemma for_each_completes_app (before rest : list Path) :
  (forall d, In d before -> completed d = true) ->
  for_each (before ++ rest) body
    = (flat_map trace_of before ++ trace (for_each rest body),
       result (for_each rest body)).
Proof.
  induction before as [|x l IH]; intros Hall.
  - cbn. destruct (for_each rest body); reflexivity.
  - cbn [for_each flat_map app].
    rewrite body_completes by (apply Hall; left; reflexivity).
    rewrite bind_Return, IH by (intros d Hd; apply Hall; right; exact Hd).
    cbn [trace result fst snd]. rewrite app_assoc. reflexivity.
Qed.

Lemma for_each_completes (entries : list Path) :
  (forall d, In d entries -> completed d = true) ->
  for_each entries body = (flat_map trace_of entries, Return tt).
Proof.
  intros Hall.
  rewrite <- (app_nil_r entries) at 1.
  rewrite for_each_completes_app by exact Hall.
  cbn. rewrite app_nil_r. reflexivity.
Qed.

(** The loop in general: it validates and reports a prefix of the
    directories, in order; when it returns, every entry completed. *)
Lemma for_each_prefix (entries : list Path) :
  validated (trace (for_each entries body))
    `prefix_of` map call_of (List.filter directory entries)
  /\ printed (trace (for_each entries body))
    `prefix_of` map line_of (List.filter directory entries)
  /\ (result (for_each entries body) = Return tt ->
      forall d, In d entries -> completed d = true).
Proof.
  induction entries as [|x l (IHv & IHp & IHr)].
  - cbn. repeat split; try apply prefix_nil; tauto.
  - cbn [for_each List.filter].
    destruct (completed x) eqn:Hdone.
    + rewrite body_completes by exact Hdone.
      rewrite bind_Return. cbn [trace result fst snd].
      rewrite validated_app, printed_app, validated_entry_trace,
        printed_entry_trace.
      destruct (directory x).
      * split; [apply prefix_cons, IHv|]. split; [apply prefix_cons, IHp|].
        intros Hret d [<- | Hd]; [exact Hdone | apply IHr; assumption].
      * split; [exact IHv|]. split; [exact IHp|].
        intros Hret d [<- | Hd]; [exact Hdone | apply IHr; assumption].
    + destruct (body_aborts x Hdone) as [ex [[-> _] | [-> Hdir]]];
        rewrite bind_Raise; cbn.
      * repeat split; try apply prefix_nil. discriminate.
      * rewrite Hdir. cbn.
        split; [apply prefix_cons, prefix_nil|].
        split; [apply prefix_nil | discriminate].
Qed.

(** Past its two guards, [validate_sessions] lists the subject directory
    and loops over what it finds. *)
Lemma validate_sessions_raw :
  b = true \/ e = true \/ v = true ->
  validate_sessions w subject_name "raw" b e v =
    (entries <- iterdir w (subject_path w "raw" subject_name) ;;
     for_each entries body).
Proof.
  intros Hflag. unfold validate_sessions.
  rewrite (some_flag_on _ _ _ Hflag).
  change (String.eqb "raw" "raw") with true. cbn [negb raise_if].
  rewrite !bind_ret_l. reflexivity.
Qed.

(** The batch past its guards on a subject directory that can be
    listed. *)
Lemma validate_sessions_listed (names : list string) :
  b = true \/ e = true \/ v = true ->
  listdir (fs w) (subject_path w "raw" subject_name) = Ok names ->
  validate_sessions w subject_name "raw" b e v =
    (EvIterdir (subject_path w "raw" subject_name)
       :: trace (for_each
                   (entries_under w (subject_path w "raw" subject_name)) body),
     result (for_each
               (entries_under w (subject_path w "raw" subject_name)) body)).
Proof.
  intros Hflag Hlist. rewrite validate_sessions_raw by exact Hflag.
  rewrite (proj1 (iterdir_listed _ _ _ Hlist)), bind_Return. reflexivity.
Qed.

(** The conditions under which every entry completes, spelled out. *)
Lemma completes_by_parts (entries : list Path) :
  (forall d, In d entries -> stat_raises w d = None) ->
  (forall d ex,
      In d (List.filter directory entries) ->
      ending_of w subject_name b e v d = Some ex ->
      reportable ex = true) ->
  (forall d,
      In d (List.filter directory entries) ->
      rich_print w (line_of d) = None) ->
  forall d, In d entries -> completed d = true.
Proof.
  intros Hstat Hrep Hprint d Hd. unfold completes.
  rewrite (Hstat d Hd).
  destruct (names_a_directory w d) eqn:Hdir; [|reflexivity].
  assert (Hd' : In d (List.filter directory entries))
    by (apply filter_In; split; assumption).
  rewrite (Hprint d Hd'), andb_true_r. unfold settles.
  destruct (ending_of w subject_name b e v d) as [ex|] eqn:Hend;
    [|reflexivity].
  apply (Hrep d ex Hd' Hend).
Qed.

End BatchFacts.

(** The batch on a subject directory whose entries all complete. *)
Lemma validate_sessions_completes (w : World) (subject_name : string)
    (b e v : bool) (names : list string) :
  b = true \/ e = true \/ v = true ->
  listdir (fs w) (subject_path w "raw" subject_name) = Ok names ->
  (forall d, In d (entries_under w (subject_path w "raw" subject_name)) ->
             completes w subject_name b e v d = true) ->
  validate_sessions w subject_name "raw" b e v =
    (EvIterdir (subject_path w "raw" subject_name)
       :: flat_map (entry_trace w subject_name b e v)
            (entries_under w (subject_path w "raw" subject_name)),
     Return tt).
Proof.
  intros Hflag Hlist Hall.
  rewrite (validate_sessions_listed _ _ _ _ _ _ Hflag Hlist).
  rewrite for_each_completes by exact Hall. reflexivity.
Qed.

(** C3 (as amended).  At level ["raw"] with a flag on: when the subject
    directory can be listed, [is_dir()] raises on none of its entries,
    every exception that [validate_raw_session] raises on a session
    directory is an instance of [Exception] with at least one argument,
    and [rich.print] renders the line of every session directory, the
    sessions are handled independently.  The trace of the batch is the
    listing followed by each entry's own trace, which depends on that
    entry alone; every session directory is validated, in order, and gets
    one line, [looking good] or [Problem with <name>: <reason>], whatever
    happened to the others. *)
Theorem batch_isolation (w : World) (subject_name : string) (b e v : bool)
    (names : list string) :
  b = true \/ e = true \/ v = true ->
  listdir (fs w) (subject_path w "raw" subject_name) = Ok names ->
  (forall d,
      In d (entries_under w (subject_path w "raw" subject_name)) ->
      stat_raises w d = None) ->
  (forall d ex,
      In d (session_directories w (subject_path w "raw" subject_name)) ->
      ending_of w subject_name b e v d = Some ex ->
      reportable ex = true) ->
  (forall d,
      In d (session_directories w (subject_path w "raw" subject_name)) ->
      rich_print w (line_for w subject_name b e v d) = None) ->
  let run := validate_sessions w subject_name "raw" b e v in
  let sessions :=
    session_directories w (subject_path w "raw" subject_name) in
  trace run
    = EvIterdir (subject_path w "raw" subject_name)
        :: flat_map (entry_trace w subject_name b e v)
             (entries_under w (subject_path w "raw" subject_name))
  /\ validated (trace run) = map (call_for subject_name b e v) sessions
  /\ printed (trace run)
     = map (fun d => report_line (name d)
                       (verdict_of (ending_of w subject_name b e v d)))
           sessions.
Proof.
  intros Hflag Hlist Hstat Hrep Hprint run sessions. subst run sessions.
  rewrite (validate_sessions_completes _ _ _ _ _ _ Hflag Hlist)
    by (apply completes_by_parts; assumption).
  cbn [trace fst]. split; [reflexivity|].
  change (EvIterdir ?p :: ?t) with ([EvIterdir p] ++ t).
  rewrite validated_app, printed_app, validated_trace_of, printed_trace_of.
  split; reflexivity.
Qed.

(** C4 (as amended).  At level ["raw"] with a flag on, [validate_sessions]
    returns, so that no exception leaves the batch, when the subject
    directory can be listed, [is_dir()] raises on none of its entries,
    every exception that [validate_raw_session] raises on a session
    directory is an instance of [Exception] with at least one argument,
    and [rich.print] renders the line of every session directory. *)
Theorem batch_returns (w : World) (subject_name : string) (b e v : bool)
    (names : list string) :
  b = true \/ e = true \/ v = true ->
  listdir (fs w) (subject_path w "raw" subject_name) = Ok names ->
  (forall d,
      In d (entries_under w (subject_path w "raw" subject_name)) ->
      stat_raises w d = None) ->
  (forall d ex,
      In d (session_directories w (subject_path w "raw" subject_name)) ->
      ending_of w subject_name b e v d = Some ex ->
      reportable ex = true) ->
  (forall d,
      In d (session_directories w (subject_path w "raw" subject_name)) ->
      rich_print w (line_for w subject_name b e v d) = None) ->
  result (validate_sessions w subject_name "raw" b e v) = Return tt.
Proof.
  intros Hflag Hlist Hstat Hrep Hprint.
  rewrite (validate_sessions_completes _ _ _ _ _ _ Hflag Hlist)
    by (apply completes_by_parts; assumption).
  reflexivity.
Qed.

(** Every turn of the loop begins with the [is_dir] query of its entry,
    and the turn of a directory goes on with its validation. *)
Lemma body_begins (w : World) (subject_name : string) (b e v : bool)
    (x : Path) :
  (exists t,
      trace (validate_sessions_body w subject_name b e v x) = EvIsDir x :: t)
  /\ (names_a_directory w x = true ->
      exists t,
        trace (validate_sessions_body w subject_name b e v x)
          = EvIsDir x :: EvValidate (call_for subject_name b e v x) :: t).
Proof.
  destruct (completes w subject_name b e v x) eqn:Hdone.
  - rewrite (body_completes _ _ _ _ _ _ Hdone). cbn [trace fst].
    unfold entry_trace. split; [eexists; reflexivity|].
    intros ->. eexists. reflexivity.
  - destruct (body_aborts _ _ _ _ _ _ Hdone) as [ex [[-> Hstat] | [-> Hdir]]];
      cbn [trace fst].
    + split; [eexists; reflexivity|].
      intros Hdir. apply directory_stat_answers in Hdir. congruence.
    + split; eexists; reflexivity.
Qed.

Lemma trace_bind {A B} (m : io A) (k : A -> io B) :
  exists t, trace (bind m k) = trace m ++ t.
Proof.
  destruct m as [t [a|ex]]; cbn.
  - eexists. reflexivity.
  - exists []. rewrite app_nil_r. reflexivity.
Qed.

(** C7 (as amended).  At level ["raw"] with a flag on and a subject
    directory that can be listed, [validate_sessions] takes the entries
    directly under [LOCAL_PATH / "raw" / subject_name] one after the other,
    in the order of the listing.  An entry is reached when every entry
    before it completed its turn.  An entry that is reached is asked
    [is_dir()]; if it is a directory it is passed to
    [validate_raw_session] with the subject name and the flags of the
    command; if [is_dir()] answers [False] it is skipped: its turn is that
    one query, and the batch goes on as the loop over the entries after
    it.  In every run the sessions validated are a prefix of the directory
    entries and the lines a prefix of their lines; when every entry
    completes, all directory entries are validated and reported, and the
    command returns. *)
Theorem batch_considers_directory_entries (w : World)
    (subject_name : string) (b e v : bool) (names : list string) :
  b = true \/ e = true \/ v = true ->
  listdir (fs w) (subject_path w "raw" subject_name) = Ok names ->
  let run := validate_sessions w subject_name "raw" b e v in
  let listed := subject_path w "raw" subject_name in
  let body := validate_sessions_body w subject_name b e v in
  let sessions := session_directories w listed in
  (forall before x after,
      map (child listed) names = before ++ x :: after ->
      (forall d, In d before -> completes w subject_name b e v d = true) ->
      (exists rest,
          trace run
            = EvIterdir listed
                :: flat_map (entry_trace w subject_name b e v) before
                ++ EvIsDir x :: rest)
      /\ (names_a_directory w x = true ->
          exists rest,
            trace run
              = EvIterdir listed
                  :: flat_map (entry_trace w subject_name b e v) before
                  ++ EvIsDir x :: EvValidate (call_for subject_name b e v x)
                  :: rest)
      /\ (names_a_directory w x = false -> stat_raises w x = None ->
          trace run
            = EvIterdir listed
                :: flat_map (entry_trace w subject_name b e v) before
                ++ EvIsDir x :: trace (for_each after body)
          /\ result run = result (for_each after body)))
  /\ validated (trace run) `prefix_of` map (call_for subject_name b e v) sessions
  /\ printed (trace run)
       `prefix_of` map (line_for w subject_name b e v) sessions
  /\ ((forall d, In d (map (child listed) names) ->
                 completes w subject_name b e v d = true) ->
      result run = Return tt
      /\ validated (trace run) = map (call_for subject_name b e v) sessions
      /\ printed (trace run) = map (line_for w subject_name b e v) sessions).
Proof.
  intros Hflag Hlist. cbv zeta.
  pose proof (proj2 (iterdir_listed _ _ _ Hlist)) as Hentries.
  rewrite (validate_sessions_listed _ _ _ _ _ _ Hflag Hlist).
  cbn [trace result fst snd]. unfold session_directories.
  rewrite Hentries.
  split; [|split; [|split]].
  - intros before x after -> Hbefore.
    rewrite for_each_completes_app by exact Hbefore.
    cbn [trace result fst snd for_each].
    destruct (body_begins w subject_name b e v x) as [[t Ht] Hdir].
    split; [|split].
    + destruct (trace_bind (validate_sessions_body w subject_name b e v x)
                  (fun _ => for_each after
                              (validate_sessions_body w subject_name b e v)))
        as [t' ->].
      rewrite Ht. eexists. reflexivity.
    + intros Hx. destruct (Hdir Hx) as [t1 Ht1].
      destruct (trace_bind (validate_sessions_body w subject_name b e v x)
                  (fun _ => for_each after
                              (validate_sessions_body w subject_name b e v)))
        as [t' ->].
      rewrite Ht1. eexists. reflexivity.
    + intros Hx Hstat.
      assert (Hdone : completes w subject_name b e v x = true)
        by (unfold completes; rewrite Hstat, Hx; reflexivity).
      rewrite (body_completes _ _ _ _ _ _ Hdone), bind_Return.
      unfold entry_trace. rewrite Hx. split; reflexivity.
  - change (EvIterdir ?p :: ?t) with ([EvIterdir p] ++ t).
    rewrite validated_app. apply for_each_prefix.
  - change (EvIterdir ?p :: ?t) with ([EvIterdir p] ++ t).
    rewrite printed_app. apply for_each_prefix.
  - intros Hall. rewrite for_each_completes by exact Hall.
    cbn [trace result fst snd]. split; [reflexivity|].
    change (EvIterdir ?p :: ?t) with ([EvIterdir p] ++ t).
    rewrite validated_app, printed_app, validated_trace_of, printed_trace_of.
    split; reflexivity.
Qed.

Lemma laboratory_entries_answer (validator : Path -> option Py.exn)
    (d : Path) :
  In d (entries_under (Lab.world validator)
          (subject_path (Lab.world validator) "raw" "M017")) ->
  stat_raises (Lab.world validator) d = None.
Proof.
  intros Hd. vm_compute in Hd.
  destruct Hd as [<- | [<- | [<- | []]]]; reflexivity.
Defined.

Lemma laboratory_sessions_settle (b e v : bool) (d : Path) (ex : Py.exn) :
  In d (session_directories (Lab.world Lab.monday_incomplete)
          (subject_path (Lab.world Lab.monday_incomplete) "raw" "M017")) ->
  ending_of (Lab.world Lab.monday_incomplete) "M017" b e v d = Some ex ->
  reportable ex = true.
Proof.
  intros Hd. vm_compute in Hd.
  destruct Hd as [<- | [<- | []]]; vm_compute; intros Hex;
    inversion Hex; reflexivity.
Defined.

Lemma batch_isolation_witness :
  listdir (fs (Lab.world Lab.monday_incomplete))
    (subject_path (Lab.world Lab.monday_incomplete) "raw" "M017")
  = Ok ["M017_2023_01_05_10_30"; "notes.txt"; "M017_2023_01_06_09_00"]
  /\ ending_of (Lab.world Lab.monday_incomplete) "M017" true true true
       Lab.monday
     = Some (Py.exc Py.ValueError "No ephys folder")
  /\ printed (trace (validate_sessions (Lab.world Lab.monday_incomplete)
                       "M017" "raw" true true true))
     = [problem_line "M017_2023_01_05_10_30" (Py.PStr "No ephys folder");
        looking_good_line "M017_2023_01_06_09_00"].
Proof.
  split; [reflexivity|]. split; [reflexivity|].
  exact (proj2 (proj2 (batch_isolation (Lab.world Lab.monday_incomplete)
                         "M017" true true true _
                         (or_introl eq_refl) eq_refl
                         (laboratory_entries_answer Lab.monday_incomplete)
                         (laboratory_sessions_settle true true true)
                         (fun _ _ => eq_refl)))).
Defined.

(** C3, as stated, fails.  An exception that is not an instance of
    [Exception] passes the [except Exception] clause: when the validation
    of Monday's session is interrupted, nothing is recorded for Monday and
    Tuesday's session, a directory of the same listing, is never
    validated.  The same happens when the exception is caught but carries
    nothing to report. *)
Lemma batch_isolation_counterexample :
  let interrupted :=
    validate_sessions (Lab.world Lab.monday_interrupted)
      "M017" "raw" true true true in
  let bare :=
    validate_sessions (Lab.world Lab.monday_bare)
      "M017" "raw" true true true in
  session_directories (Lab.world Lab.monday_interrupted)
      (subject_path (Lab.world Lab.monday_interrupted) "raw" "M017")
    = [Lab.monday; Lab.tuesday]
  /\ Lab.monday_interrupted Lab.monday
     = Some (Py.mk_exn Py.KeyboardInterrupt [])
  /\ result interrupted = Raise (Py.mk_exn Py.KeyboardInterrupt [])
  /\ validated (trace interrupted)
     = [call_for "M017" true true true Lab.monday]
  /\ printed (trace interrupted) = []
  /\ Lab.monday_bare Lab.monday = Some (Py.mk_exn Py.ValueError [])
  /\ result bare = Raise (Py.exc Py.IndexError "tuple index out of range")
  /\ validated (trace bare) = [call_for "M017" true true true Lab.monday]
  /\ printed (trace bare) = [].
Proof. cbv zeta. repeat split; vm_compute; reflexivity. Qed.

Lemma batch_returns_witness :
  listdir (fs (Lab.world Lab.monday_incomplete))
    (subject_path (Lab.world Lab.monday_incomplete) "raw" "M017")
  = Ok ["M017_2023_01_05_10_30"; "notes.txt"; "M017_2023_01_06_09_00"]
  /\ result (validate_sessions (Lab.world Lab.monday_incomplete)
               "M017" "raw" false true false)
     = Return tt.
Proof.
  split; [reflexivity|].
  exact (batch_returns (Lab.world Lab.monday_incomplete)
           "M017" false true false _
           (or_intror (or_introl eq_refl)) eq_refl
           (laboratory_entries_answer Lab.monday_incomplete)
           (laboratory_sessions_settle false true false)
           (fun _ _ => eq_refl)).
Defined.

(** C4, as stated, fails: the listing of the subject directory and the
    [is_dir] query of each entry are outside the [try], and the handler
    lets pass what is not an [Exception] and may itself raise.  A subject
    without a directory makes [iterdir] raise [FileNotFoundError]; a
    subject directory that may not be read makes it raise
    [PermissionError]; [SystemExit] out of a validation leaves the batch;
    and a reason that holds a bracketed path makes [rich.print] raise
    [MarkupError] out of the handler. *)
Lemma batch_returns_counterexample :
  let w := Lab.world Lab.monday_incomplete in
  listdir (fs w) (subject_path w "raw" "M018") = Errno 2
  /\ validate_sessions w "M018" "raw" true true true
     = ([EvIterdir (subject_path w "raw" "M018")],
        Raise (Py.mk_exn Py.FileNotFoundError
                 [Py.PInt 2; Py.PStr "No such file or directory"]))
  /\ names_a_directory w (subject_path w "raw" "M019") = true
  /\ validate_sessions w "M019" "raw" true true true
     = ([EvIterdir (subject_path w "raw" "M019")],
        Raise (Py.mk_exn Py.PermissionError
                 [Py.PInt 13; Py.PStr "Permission denied"]))
  /\ result (validate_sessions (Lab.world Lab.monday_exits)
               "M017" "raw" true true true)
     = Raise (Py.mk_exn Py.SystemExit [Py.PInt 1])
  /\ reportable (Py.exc Py.ValueError Lab.empty_file_reason) = true
  /\ result (validate_sessions
               (Lab.world_on Lab.monday_empty_file Lab.strict_console)
               "M017" "raw" true true true)
     = Raise Lab.markup_error.
Proof. cbv zeta. repeat split; vm_compute; reflexivity. Qed.

Lemma batch_considers_directory_entries_witness :
  names_a_directory (Lab.world Lab.monday_incomplete) Lab.notes = false
  /\ trace (validate_sessions (Lab.world Lab.monday_incomplete)
              "M017" "raw" true true true)
     = EvIterdir Lab.subject_dir
         :: entry_trace (Lab.world Lab.monday_incomplete) "M017"
              true true true Lab.monday
         ++ EvIsDir Lab.notes
         :: trace (for_each [Lab.tuesday]
                     (validate_sessions_body
                        (Lab.world Lab.monday_incomplete) "M017"
                        true true true)).
Proof.
  split; [reflexivity|].
  refine (eq_trans
            (proj1 (proj2 (proj2
               (proj1 (batch_considers_directory_entries
                         (Lab.world Lab.monday_incomplete) "M017"
                         true true true _ (or_introl eq_refl) eq_refl)
                  [Lab.monday] Lab.notes [Lab.tuesday] eq_refl _))
               eq_refl eq_refl))
            _).
  - intros d [<- | []]. reflexivity.
  - cbn [flat_map]. rewrite app_nil_r. reflexivity.
Defined.

(** C7, as stated, fails: a directory entry is not passed to
    [validate_raw_session] when an earlier entry ended the batch.  When
    Monday's validation leaves through [SystemExit] the loop ends there,
    and Tuesday's session, a directory directly under the subject
    directory, is never validated. *)
Lemma batch_considers_directory_entries_counterexample :
  let w := Lab.world Lab.monday_exits in
  In Lab.tuesday (session_directories w (subject_path w "raw" "M017"))
  /\ validated (trace (validate_sessions w "M017" "raw" true true true))
     = [call_for "M017" true true true Lab.monday]
  /\ call_for "M017" true true true Lab.tuesday
     <> call_for "M017" true true true Lab.monday.
Proof.
  cbv zeta. split; [vm_compute; tauto|].
  split; [vm_compute; reflexivity | discriminate].
Qed.

(** The batch of the laboratory runs to its end, and validates exactly
    Monday's and Tuesday's sessions. *)
Example batch_of_the_laboratory :
  let run := validate_sessions (Lab.world Lab.monday_incomplete)
               "M017" "raw" true true true in
  result run = Return tt
  /\ validated (trace run)
     = [call_for "M017" true true true Lab.monday;
        call_for "M017" true true true Lab.tuesday]
  /\ In (EvIsDir Lab.notes) (trace run)
  /\ ~ In (call_for "M017" true true true Lab.notes) (validated (trace run)).
Proof.
  cbv zeta. split; [vm_compute; reflexivity|].
  split; [vm_compute; reflexivity|].
  split; [vm_compute; tauto|].
  vm_compute. intros [H | [H | []]]; discriminate H.
Qed.

(** A session path that names nothing is told it must be a directory. *)
Example missing_session_path :
  names_a_node (Lab.world Lab.monday_incomplete)
    (absolute (Lab.world Lab.monday_incomplete) (of_string "nowhere")) = false
  /\ validate_session (Lab.world Lab.monday_incomplete)
       (of_string "nowhere") "M017" "raw" true true true
     = ([EvIsDir (of_string "/home/user/nowhere")], Raise must_be_a_directory).
Proof. split; vm_compute; reflexivity. Qed.

(* ===================================================================== *)
(** ** The copy policy of the transfer engine *)
(* ===================================================================== *)

Section TransferFacts.

Import TransferEngine.

Variable remote_root : Path.
Variable layout : list string.

(** Copying one file never changes a file the remote already holds. *)
Lemma copy_file_keeps (remote : gmap Path (list Byte.byte)) (dest : Path)
    (data : list Byte.byte) (k : Path) (present : list Byte.byte) :
  remote !! k = Some present ->
  (copy_file remote dest data).1 !! k = Some present.
Proof.
  intros Hk. unfold copy_file.
  destruct (remote !! dest) as [old|] eqn:Hdest.
  - destruct (decide (old = data)); exact Hk.
  - cbn. rewrite lookup_insert_ne; [exact Hk|].
    intros ->. rewrite Hk in Hdest. discriminate.
Qed.

(** What a copy of one file can yield. *)
Lemma copy_file_cases (remote : gmap Path (list Byte.byte)) (dest : Path)
    (data : list Byte.byte) :
  (remote !! dest = None
   /\ copy_file remote dest data = (<[dest := data]> remote, inr true))
  \/ (remote !! dest = Some data
      /\ copy_file remote dest data = (remote, inr false))
  \/ (exists old, remote !! dest = Some old /\ old <> data
      /\ copy_file remote dest data
         = (remote, inl (TransferConflictError dest))).
Proof.
  unfold copy_file. destruct (remote !! dest) as [old|].
  - destruct (decide (old = data)) as [-> | Hne].
    + right; left. split; reflexivity.
    + right; right. exists old.
      split; [reflexivity|]. split; [exact Hne|reflexivity].
  - left. split; reflexivity.
Qed.

Lemma copy_all_keeps (files : list local_file) :
  forall (remote : gmap Path (list Byte.byte)) (copied : nat) (k : Path)
         (present : list Byte.byte),
    remote !! k = Some present ->
    (copy_all remote_root layout files remote copied).1 !! k = Some present.
Proof.
  induction files as [|f rest IH]; intros remote copied k present Hk;
    [exact Hk|].
  cbn [copy_all].
  pose proof (copy_file_keeps remote (destination remote_root layout f)
                (lf_data f) k present Hk) as Hstep.
  destruct (copy_file remote (destination remote_root layout f) (lf_data f))
    as [remote' [err | newly]].
  - exact Hstep.
  - apply IH. exact Hstep.
Qed.

(** A selected file whose destination holds other bytes stops the run
    with a conflict, at that file or at an earlier one. *)
Lemma copy_all_conflict (files : list local_file) :
  forall (remote : gmap Path (list Byte.byte)) (copied : nat)
         (f : local_file) (present : list Byte.byte),
    In f files ->
    remote !! destination remote_root layout f = Some present ->
    present <> lf_data f ->
    exists d,
      (copy_all remote_root layout files remote copied).2
        = inl (TransferConflictError d).
Proof.
  induction files as [|g rest IH]; intros remote copied f present Hin Hf Hne;
    [destruct Hin|].
  cbn [copy_all].
  destruct (copy_file_cases remote (destination remote_root layout g)
              (lf_data g))
    as [[Hnone ->] | [[Hsame ->] | (old & Hold & Hdiff & ->)]].
  - destruct Hin as [-> | Hin]; [congruence|].
    apply (IH _ _ f present Hin); [|exact Hne].
    rewrite lookup_insert_ne; [exact Hf|].
    intros Heq. rewrite Heq in Hnone. congruence.
  - destruct Hin as [-> | Hin]; [congruence|].
    apply (IH _ _ f present Hin Hf Hne).
  - eexists. reflexivity.
Qed.

End TransferFacts.

(** C9.  On the transfer engine as the design text describes it: when a
    selected file of the session has a destination under the remote root
    that already holds different bytes, [upload_raw_session] fails with a
    conflict error, and that remote file holds after the run the bytes it
    held before; so does every file the remote held before the run. *)
Theorem upload_conflict_is_an_error (tree : list TransferEngine.local_file)
    (local_session_path : Path) (subject_name : string)
    (local_root remote_root : Path) (ib ie iv : bool)
    (remote : gmap Path (list Byte.byte))
    (layout : list string) (f : TransferEngine.local_file)
    (present : list Byte.byte) :
  TransferEngine.relative_to local_session_path local_root = Some layout ->
  In f (TransferEngine.selected_files ib ie iv tree) ->
  remote !! TransferEngine.destination remote_root layout f = Some present ->
  present <> TransferEngine.lf_data f ->
  let run := TransferEngine.upload_raw_session tree local_session_path
               subject_name local_root remote_root ib ie iv remote in
  (exists d, run.2 = inl (TransferEngine.TransferConflictError d))
  /\ run.1 !! TransferEngine.destination remote_root layout f = Some present
  /\ forall k bytes, remote !! k = Some bytes -> run.1 !! k = Some bytes.
Proof.
  intros Hrel Hin Hf Hne run. subst run.
  unfold TransferEngine.upload_raw_session. rewrite Hrel.
  split; [|split].
  - apply (copy_all_conflict remote_root layout _ remote 0 f present);
      assumption.
  - apply copy_all_keeps. exact Hf.
  - intros k bytes Hk. apply copy_all_keeps. exact Hk.
Qed.

Lemma upload_conflict_is_an_error_witness :
  Lab.remote !! Lab.remote_log = Some (Lab.bytes_of "trial 0")
  /\ Lab.bytes_of "trial 0" <> Lab.bytes_of "trial 1"
  /\ (TransferEngine.upload_raw_session Lab.tree Lab.monday "M017"
        (of_string "/data") (of_string "/mnt/remote") true true true
        Lab.remote).1 !! Lab.remote_log
     = Some (Lab.bytes_of "trial 0").
Proof.
  assert (Hheld : Lab.remote !! Lab.remote_log
                  = Some (Lab.bytes_of "trial 0")) by reflexivity.
  assert (Hdiff : Lab.bytes_of "trial 0" <> Lab.bytes_of "trial 1")
    by discriminate.
  split; [exact Hheld|]. split; [exact Hdiff|].
  exact (proj1 (proj2
           (upload_conflict_is_an_error Lab.tree Lab.monday "M017"
              (of_string "/data") (of_string "/mnt/remote") true true true
              Lab.remote ["raw"; "M017"; "M017_2023_01_05_10_30"]
              (List.hd (TransferEngine.Build_local_file
                          TransferEngine.Behavior [] []) Lab.tree)
              (Lab.bytes_of "trial 0")
              eq_refl (or_introl eq_refl) Hheld Hdiff))).
Defined.


(* ===================================================================== *)
(** ** More on the single-session commands *)
(* ===================================================================== *)

(** X1.  [validate_session] calls [validate_raw_session] exactly when the
    level is ["raw"], some modality is selected and [is_dir()] answers
    [True] on the session path.  It then calls it once, on the absolute
    path with the subject name and the three flags as given, and ends as
    that call ends: what the validator raises is passed on unchanged.  In
    every other case nothing is validated and the command raises: the
    [NotImplementedError] at another level; at level ["raw"] the
    [ValueError] of the empty selection when no modality is selected, and
    otherwise what [is_dir()] raised when [os.stat] failed, or
    [ValueError("Session path must be a directory.")] when it answered
    [False]. *)
Theorem validate_session_calls_validator_iff (w : World) (p : Path)
    (subject_name processing_level : string) (b e v : bool) :
  let run := validate_session w p subject_name processing_level b e v in
  let reached :=
    processing_level = "raw"
    /\ (b = true \/ e = true \/ v = true)
    /\ names_a_directory w (absolute w p) = true in
  (reached ->
   validated (trace run) = [mk_validate_call (absolute w p) subject_name b e v]
   /\ result run
      = match validate_raw_session w (absolute w p) subject_name b e v with
        | None => Return tt
        | Some ex => Raise ex
        end)
  /\ (~ reached ->
      validated (trace run) = []
      /\ ((processing_level <> "raw"
           /\ result run = Raise only_raw_supported)
          \/ (processing_level = "raw"
              /\ (b = false /\ e = false /\ v = false)
              /\ result run = Raise nothing_to_check)
          \/ (processing_level = "raw"
              /\ (b = true \/ e = true \/ v = true)
              /\ exists ex, stat_raises w (absolute w p) = Some ex
                            /\ result run = Raise ex)
          \/ (processing_level = "raw"
              /\ (b = true \/ e = true \/ v = true)
              /\ stat_raises w (absolute w p) = None
              /\ result run = Raise must_be_a_directory))).
Proof.
  cbv zeta. split.
  - intros (-> & Hflag & Hdir).
    rewrite validate_session_raw, (some_flag_on _ _ _ Hflag),
      (directory_stat_answers _ _ Hdir), Hdir.
    split; reflexivity.
  - intros Hnot.
    destruct (String.eqb_spec processing_level "raw") as [-> | Hne].
    + rewrite validate_session_raw.
      destruct (Py.all [negb b; negb e; negb v]) eqn:Hall.
      * split; [reflexivity|]. right; left.
        split; [reflexivity|]. split; [|reflexivity].
        destruct b; [discriminate|]. destruct e; [discriminate|].
        destruct v; [discriminate|]. repeat split.
      * apply some_flag_on_inv in Hall as Hflag.
        destruct (stat_raises w (absolute w p)) as [ex|] eqn:Hstat.
        -- split; [reflexivity|]. right; right; left.
           split; [reflexivity|]. split; [exact Hflag|].
           exists ex. split; reflexivity.
        -- destruct (names_a_directory w (absolute w p)) eqn:Hdir.
           ++ exfalso. apply Hnot. repeat split; assumption.
           ++ split; [reflexivity|]. right; right; right.
              repeat split; assumption.
    + rewrite (validate_session_not_raw _ _ _ _ _ _ _ Hne).
      split; [reflexivity|]. left. split; [exact Hne | reflexivity].
Qed.

(** X2.  [rename_videos] calls [rename_raw_videos_of_session] exactly when
    the level is ["raw"] and [is_dir()] answers [True] on the session
    path: once, on the absolute path with the subject name and the verbose
    flag, ending as that call ends.  Otherwise nothing is renamed and the
    command raises: [NotImplementedError] at another level; at level
    ["raw"] what [is_dir()] raised when [os.stat] failed, or
    [ValueError("Session path must be a directory.")] when it answered
    [False]. *)
Theorem rename_videos_calls_renamer_iff (w : World) (p : Path)
    (subject_name processing_level : string) (verbose : bool) :
  let run := rename_videos w p subject_name processing_level verbose in
  let reached :=
    processing_level = "raw"
    /\ names_a_directory w (absolute w p) = true in
  (reached ->
   renamed (trace run) = [mk_rename_call (absolute w p) subject_name verbose]
   /\ result run
      = match rename_raw_videos_of_session w (absolute w p)
                subject_name verbose with
        | None => Return tt
        | Some ex => Raise ex
        end)
  /\ (~ reached ->
      renamed (trace run) = []
      /\ ((processing_level <> "raw"
           /\ result run = Raise only_raw_supported)
          \/ (processing_level = "raw"
              /\ exists ex, stat_raises w (absolute w p) = Some ex
                            /\ result run = Raise ex)
          \/ (processing_level = "raw"
              /\ stat_raises w (absolute w p) = None
              /\ result run = Raise must_be_a_directory))).
Proof.
  cbv zeta. split.
  - intros (-> & Hdir).
    rewrite rename_videos_raw, (directory_stat_answers _ _ Hdir), Hdir.
    split; reflexivity.
  - intros Hnot.
    destruct (String.eqb_spec processing_level "raw") as [-> | Hne].
    + rewrite rename_videos_raw.
      destruct (stat_raises w (absolute w p)) as [ex|] eqn:Hstat.
      * split; [reflexivity|]. right; left.
        split; [reflexivity|]. exists ex. split; reflexivity.
      * destruct (names_a_directory w (absolute w p)) eqn:Hdir.
        -- exfalso. apply Hnot. repeat split; assumption.
        -- split; [reflexivity|]. right; right.
           repeat split; assumption.
    + rewrite (rename_videos_not_raw _ _ _ _ _ Hne).
      split; [reflexivity|]. left. split; [exact Hne | reflexivity].
Qed.

(** X3.  [upload_session] returns [True] exactly when the level is
    ["raw"], some modality is included and [upload_raw_session] returned;
    it never returns [False]: every other run ends in an exception. *)
Theorem upload_session_returns_true_iff (w : World) (p : Path)
    (subject_name processing_level : string) (b e v : bool) :
  let run := upload_session w p subject_name processing_level b e v in
  (result run = Return true <->
   processing_level = "raw"
   /\ (b = true \/ e = true \/ v = true)
   /\ upload_raw_session w (absolute w p) subject_name
        (LOCAL_PATH (config w)) (REMOTE_PATH (config w)) b e v = None)
  /\ result run <> Return false
  /\ (result run <> Return true -> exists ex, result run = Raise ex).
Proof.
  cbv zeta.
  destruct (String.eqb_spec processing_level "raw") as [-> | Hne].
  - destruct (Py.all [negb b; negb e; negb v]) eqn:Hall.
    + assert (Hno : ~ (b = true \/ e = true \/ v = true)).
      { intros Hflag. rewrite (some_flag_on _ _ _ Hflag) in Hall.
        discriminate. }
      unfold upload_session. rewrite Hall. cbn.
      split; [split; [discriminate | tauto]|].
      split; [discriminate | intros _; eexists; reflexivity].
    + apply some_flag_on_inv in Hall as Hflag.
      rewrite (upload_session_raw _ _ _ _ _ _ Hflag). cbn [result snd].
      destruct (upload_raw_session w _ _ _ _ _ _ _) as [ex|].
      * split; [split; [discriminate | intros (_ & _ & H); discriminate]|].
        split; [discriminate | intros _; eexists; reflexivity].
      * split; [split; [tauto | reflexivity]|].
        split; [discriminate | congruence].
  - unfold upload_session. rewrite (not_raw _ Hne). cbn.
    split; [split; [discriminate | tauto]|].
    split; [discriminate | intros _; eexists; reflexivity].
Qed.

(* ===================================================================== *)
(** ** The paths handed to the collaborators *)
(* ===================================================================== *)

Lemma absolute_is_absolute (w : World) (p : Path) :
  is_absolute (cwd w) = true -> is_absolute (absolute w p) = true.
Proof.
  intros Hcwd. unfold absolute.
  destruct (is_absolute p) eqn:Hp; [exact Hp|].
  unfold join. rewrite Hp. exact Hcwd.
Qed.

Lemma absolute_fixed (w : World) (p : Path) :
  is_absolute p = true -> absolute w p = p.
Proof. intros Hp. unfold absolute. rewrite Hp. reflexivity. Qed.

(** The one call a single-session command can make. *)
Lemma validate_session_call (w : World) (p : Path)
    (subject_name processing_level : string) (b e v : bool)
    (c : validate_call) :
  In c (validated (trace (validate_session w p subject_name
                            processing_level b e v))) ->
  c = mk_validate_call (absolute w p) subject_name b e v.
Proof.
  destruct (String.eqb_spec processing_level "raw") as [-> | Hne].
  - rewrite validate_session_raw.
    destruct (Py.all _); [intros []|].
    destruct (stat_raises w (absolute w p)); [intros []|].
    destruct (names_a_directory w (absolute w p)); cbn; [|intros []].
    intros [<- | []]. reflexivity.
  - rewrite (validate_session_not_raw _ _ _ _ _ _ _ Hne). intros [].
Qed.

Lemma rename_videos_call (w : World) (p : Path)
    (subject_name processing_level : string) (verbose : bool)
    (c : rename_call) :
  In c (renamed (trace (rename_videos w p subject_name
                          processing_level verbose))) ->
  c = mk_rename_call (absolute w p) subject_name verbose.
Proof.
  destruct (String.eqb_spec processing_level "raw") as [-> | Hne].
  - rewrite rename_videos_raw.
    destruct (stat_raises w (absolute w p)); [intros []|].
    destruct (names_a_directory w (absolute w p)); cbn; [|intros []].
    intros [<- | []]. reflexivity.
  - rewrite (rename_videos_not_raw _ _ _ _ _ Hne). intros [].
Qed.

Lemma upload_session_call (w : World) (p : Path)
    (subject_name processing_level : string) (b e v : bool)
    (c : upload_call) :
  In c (uploaded (trace (upload_session w p subject_name
                           processing_level b e v))) ->
  c = mk_upload_call (absolute w p) subject_name
        (LOCAL_PATH (config w)) (REMOTE_PATH (config w)) b e v.
Proof.
  destruct (String.eqb_spec processing_level "raw") as [-> | Hne].
  - destruct (Py.all [negb b; negb e; negb v]) eqn:Hall.
    + unfold upload_session. rewrite Hall. intros [].
    + apply some_flag_on_inv in Hall as Hflag.
      rewrite (upload_session_raw _ _ _ _ _ _ Hflag). cbn.
      intros [<- | []]. reflexivity.
  - unfold upload_session. rewrite (not_raw _ Hne). intros [].
Qed.

(** X4.  With an absolute working directory, every session path that
    [validate_session], [rename_videos] and [upload_session] hand to their
    collaborator is absolute, also when the command was given a relative
    one; a session path that is absolute already is handed over as it
    is. *)
Theorem commands_pass_absolute_paths (w : World) (p : Path)
    (subject_name processing_level : string) (b e v verbose : bool) :
  is_absolute (cwd w) = true ->
  (forall c,
      In c (validated (trace (validate_session w p subject_name
                                processing_level b e v))) ->
      is_absolute (vc_session_path c) = true
      /\ (is_absolute p = true -> vc_session_path c = p))
  /\ (forall c,
         In c (renamed (trace (rename_videos w p subject_name
                                 processing_level verbose))) ->
         is_absolute (rc_session_path c) = true
         /\ (is_absolute p = true -> rc_session_path c = p))
  /\ (forall c,
         In c (uploaded (trace (upload_session w p subject_name
                                  processing_level b e v))) ->
         is_absolute (uc_local_session_path c) = true
         /\ (is_absolute p = true -> uc_local_session_path c = p)).
Proof.
  intros Hcwd. split; [|split]; intros c Hc.
  - apply validate_session_call in Hc as ->. cbn.
    split; [apply absolute_is_absolute, Hcwd | apply absolute_fixed].
  - apply rename_videos_call in Hc as ->. cbn.
    split; [apply absolute_is_absolute, Hcwd | apply absolute_fixed].
  - apply upload_session_call in Hc as ->. cbn.
    split; [apply absolute_is_absolute, Hcwd | apply absolute_fixed].
Qed.

Lemma commands_pass_absolute_paths_witness :
  is_absolute (cwd (Lab.world Lab.monday_incomplete)) = true
  /\ is_absolute (of_string "nowhere") = false
  /\ uploaded (trace (upload_session (Lab.world Lab.monday_incomplete)
                        (of_string "nowhere") "M017" "raw" true true true))
     = [mk_upload_call (of_string "/home/user/nowhere") "M017"
          (of_string "/data") (of_string "/mnt/remote") true true true]
  /\ is_absolute (of_string "/home/user/nowhere") = true.
Proof.
  split; [reflexivity|]. split; [reflexivity|]. split; [reflexivity|].
  exact (proj1 (proj2 (proj2
           (commands_pass_absolute_paths (Lab.world Lab.monday_incomplete)
              (of_string "nowhere") "M017" "raw" true true true false
              eq_refl)) _ (or_introl eq_refl))).
Defined.

(* ===================================================================== *)
(** ** The directory a batch lists *)
(* ===================================================================== *)

Lemma of_string_slash (rest : string) :
  is_absolute (of_string (String "/"%char rest)) = true.
Proof.
  unfold is_absolute, of_string. cbn [root leading_slashes].
  change (Ascii.eqb "/"%char "/"%char) with true. cbn iota.
  destruct (leading_slashes rest) as [|[|n]]; reflexivity.
Qed.

Lemma of_string_relative (s : string) :
  leading_slashes s = 0 -> is_absolute (of_string s) = false.
Proof.
  intros H. unfold is_absolute, of_string. cbn [root]. rewrite H.
  reflexivity.
Qed.

(** X5.  Past its guards [validate_sessions] lists the directory
    [LOCAL_PATH / "raw" / subject_name] before anything else.  For a
    subject name without a leading slash that directory has the root and
    the parts of the local root, then [raw], then the components of the
    name.  A subject name that begins with a slash replaces the local root
    altogether: the directory listed is [Path(subject_name)], whatever the
    local root is. *)
Theorem batch_lists_subject_path (w : World) (subject_name : string)
    (b e v : bool) :
  b = true \/ e = true \/ v = true ->
  (exists t,
      trace (validate_sessions w subject_name "raw" b e v)
        = EvIterdir (subject_path w "raw" subject_name) :: t)
  /\ (leading_slashes subject_name = 0 ->
      subject_path w "raw" subject_name
        = mk_path (root (LOCAL_PATH (config w)))
            (parts (LOCAL_PATH (config w))
               ++ "raw" :: parts (of_string subject_name)))
  /\ (forall rest,
         subject_name = String "/"%char rest ->
         subject_path w "raw" subject_name = of_string subject_name).
Proof.
  intros Hflag. split; [|split].
  - rewrite validate_sessions_raw by exact Hflag.
    destruct (listdir (fs w) (subject_path w "raw" subject_name))
      as [names|errno] eqn:Hlist.
    + rewrite (proj1 (iterdir_listed _ _ _ Hlist)), bind_Return. cbn.
      eexists. reflexivity.
    + rewrite (proj1 (iterdir_fails _ _ _ Hlist)), bind_Raise. cbn.
      eexists. reflexivity.
  - intros Hrel. unfold subject_path, joinpath, join.
    rewrite (of_string_relative _ Hrel).
    change (is_absolute (of_string "raw")) with false. cbn [root parts].
    change (parts (of_string "raw")) with ["raw"].
    rewrite <- app_assoc. reflexivity.
  - intros rest ->. unfold subject_path, joinpath. unfold join at 1.
    rewrite of_string_slash. reflexivity.
Qed.

Lemma batch_lists_subject_path_witness :
  subject_path (Lab.world Lab.monday_incomplete) "raw" "/etc/passwd"
  = of_string "/etc/passwd"
  /\ subject_path (Lab.world Lab.monday_incomplete) "raw" "M017"
     = mk_path "/" ["data"; "raw"; "M017"].
Proof.
  split.
  - exact (proj2 (proj2 (batch_lists_subject_path
                           (Lab.world Lab.monday_incomplete) "/etc/passwd"
                           true true true (or_introl eq_refl)))
             "etc/passwd" eq_refl).
  - exact (proj1 (proj2 (batch_lists_subject_path
                           (Lab.world Lab.monday_incomplete) "M017"
                           true true true (or_introl eq_refl)))
             eq_refl).
Defined.

(* ===================================================================== *)
(** ** More on the batch *)
(* ===================================================================== *)

(** A batch that returned went past both guards, listed the subject
    directory and saw every entry complete its turn. *)
Lemma batch_returned (w : World) (subject_name processing_level : string)
    (b e v : bool) :
  result (validate_sessions w subject_name processing_level b e v)
    = Return tt ->
  processing_level = "raw"
  /\ (b = true \/ e = true \/ v = true)
  /\ (exists names,
         listdir (fs w) (subject_path w "raw" subject_name) = Ok names)
  /\ forall d,
       In d (entries_under w (subject_path w "raw" subject_name)) ->
       completes w subject_name b e v d = true.
Proof.
  destruct (String.eqb_spec processing_level "raw") as [-> | Hne].
  2:{ unfold validate_sessions. rewrite (not_raw _ Hne). discriminate. }
  destruct (Py.all [negb b; negb e; negb v]) eqn:Hall.
  { unfold validate_sessions. rewrite Hall. discriminate. }
  apply some_flag_on_inv in Hall as Hflag.
  destruct (listdir (fs w) (subject_path w "raw" subject_name))
    as [names|errno] eqn:Hlist.
  - rewrite (validate_sessions_listed _ _ _ _ _ _ Hflag Hlist).
    cbn [result snd]. intros Hret.
    destruct (for_each_prefix w subject_name b e v
                (entries_under w (subject_path w "raw" subject_name)))
      as (_ & _ & Hr).
    split; [reflexivity|]. split; [exact Hflag|].
    split; [exists names; reflexivity | exact (Hr Hret)].
  - rewrite validate_sessions_raw by exact Hflag.
    rewrite (proj1 (iterdir_fails _ _ _ Hlist)), bind_Raise. discriminate.
Qed.

(** X6.  [validate_sessions] returns exactly when the level is ["raw"],
    some modality is selected, [os.listdir] succeeds on the subject
    directory, and every entry completes its turn: [is_dir()] does not
    raise on it and, when it is a directory, its validation either passes
    or raises an instance of [Exception] that carries at least one
    argument, and [rich.print] renders its line.  In every other case the
    command ends in an exception. *)
Theorem batch_returns_iff (w : World)
    (subject_name processing_level : string) (b e v : bool) :
  let run := validate_sessions w subject_name processing_level b e v in
  (result run = Return tt <->
   processing_level = "raw"
   /\ (b = true \/ e = true \/ v = true)
   /\ (exists names,
          listdir (fs w) (subject_path w "raw" subject_name) = Ok names)
   /\ forall d,
        In d (entries_under w (subject_path w "raw" subject_name)) ->
        completes w subject_name b e v d = true)
  /\ (result run <> Return tt -> exists ex, result run = Raise ex).
Proof.
  cbv zeta. split; [split|].
  - apply batch_returned.
  - intros (-> & Hflag & (names & Hlist) & Hall).
    rewrite (validate_sessions_completes _ _ _ _ _ _ Hflag Hlist Hall).
    reflexivity.
  - destruct (result (validate_sessions w subject_name processing_level
                        b e v)) as [[]|ex].
    + congruence.
    + intros _. exists ex. reflexivity.
Qed.

(** The entries of a directory share its root. *)
Lemma entry_root (w : World) (p d : Path) :
  In d (entries_under w p) -> root d = root p.
Proof.
  unfold entries_under.
  destruct (listdir (fs w) p) as [names|errno]; [|intros []].
  intros Hd. apply in_map_iff in Hd as (n & <- & _). reflexivity.
Qed.

Lemma lines_differ (n n' : string) (reason : Py.value) :
  problem_line n reason <> looking_good_line n'.
Proof. unfold problem_line, looking_good_line. cbn. discriminate. Qed.

(** X7.  The batch and the single-session command agree.  When the
    subject directory has an absolute path, [validate_session] run on a
    session directory of the listing makes the very call of
    [validate_raw_session] the batch makes for that directory, and it
    returns exactly when the line of the batch for that directory is the
    [looking good] one.  A batch that returned has made that call and
    printed that line. *)
Theorem batch_agrees_with_validate_session (w : World)
    (subject_name : string) (b e v : bool) (d : Path) :
  b = true \/ e = true \/ v = true ->
  is_absolute (subject_path w "raw" subject_name) = true ->
  In d (session_directories w (subject_path w "raw" subject_name)) ->
  validated (trace (validate_session w d subject_name "raw" b e v))
    = [call_for subject_name b e v d]
  /\ (result (validate_session w d subject_name "raw" b e v) = Return tt
      <-> line_for w subject_name b e v d = looking_good_line (name d))
  /\ (result (validate_sessions w subject_name "raw" b e v) = Return tt ->
      In (call_for subject_name b e v d)
         (validated (trace (validate_sessions w subject_name "raw" b e v)))
      /\ In (line_for w subject_name b e v d)
            (printed (trace (validate_sessions w subject_name "raw" b e v)))).
Proof.
  intros Hflag Habs Hd.
  pose proof Hd as Hd'. apply filter_In in Hd' as [Hin Hdir].
  assert (Hfix : absolute w d = d).
  { apply absolute_fixed. unfold is_absolute in *.
    rewrite (entry_root _ _ _ Hin). exact Habs. }
  rewrite validate_session_raw, (some_flag_on _ _ _ Hflag), Hfix,
    (directory_stat_answers _ _ Hdir), Hdir.
  split; [reflexivity|]. split.
  - unfold line_for, ending_of. cbn [result snd].
    destruct (validate_raw_session w d subject_name b e v) as [ex|]; cbn.
    + split; [discriminate|]. intros H. apply lines_differ in H. destruct H.
    + split; reflexivity.
  - intros Hret.
    destruct (batch_returned _ _ _ _ _ _ Hret)
      as (_ & _ & (names & Hlist) & Hall).
    rewrite (validate_sessions_completes _ _ _ _ _ _ Hflag Hlist Hall).
    cbn [trace fst]. change (EvIterdir ?p :: ?t) with ([EvIterdir p] ++ t).
    rewrite validated_app, printed_app, validated_trace_of,
      printed_trace_of.
    cbn [validated printed flat_map app].
    split; apply in_map; exact Hd.
Qed.

Lemma batch_agrees_with_validate_session_witness :
  In Lab.tuesday
     (session_directories (Lab.world Lab.monday_incomplete)
        (subject_path (Lab.world Lab.monday_incomplete) "raw" "M017"))
  /\ validated (trace (validate_session (Lab.world Lab.monday_incomplete)
                         Lab.tuesday "M017" "raw" true true true))
     = [call_for "M017" true true true Lab.tuesday].
Proof.
  assert (Hd : In Lab.tuesday
                 (session_directories (Lab.world Lab.monday_incomplete)
                    (subject_path (Lab.world Lab.monday_incomplete)
                       "raw" "M017")))
    by (right; left; reflexivity).
  split; [exact Hd|].
  exact (proj1 (batch_agrees_with_validate_session
                  (Lab.world Lab.monday_incomplete) "M017" true true true
                  Lab.tuesday (or_introl eq_refl) eq_refl Hd)).
Defined.

(** The loop never reports a session it did not validate, and leaves at
    most one validated session without a line. *)
Lemma for_each_lag (w : World) (subject_name : string) (b e v : bool)
    (entries : list Path) :
  let run := for_each entries (validate_sessions_body w subject_name b e v) in
  length (printed (trace run)) <= length (validated (trace run))
  /\ length (validated (trace run)) <= S (length (printed (trace run)))
  /\ (result run = Return tt ->
      length (printed (trace run)) = length (validated (trace run))).
Proof.
  cbv zeta. induction entries as [|x l (IH1 & IH2 & IH3)].
  - cbn. repeat split; lia.
  - cbn [for_each].
    destruct (completes w subject_name b e v x) eqn:Hdone.
    + rewrite body_completes by exact Hdone.
      rewrite bind_Return. cbn [trace result fst snd].
      rewrite validated_app, printed_app, validated_entry_trace,
        printed_entry_trace, !length_app.
      destruct (names_a_directory w x); cbn [length];
        (repeat split; try lia; intros Hret; specialize (IH3 Hret); lia).
    + destruct (body_aborts w subject_name b e v x Hdone)
        as [ex [[-> _] | [-> _]]];
        rewrite bind_Raise; cbn; repeat split; try lia; discriminate.
Qed.

(** X8.  In every run of [validate_sessions] the lines printed never
    outnumber the sessions validated, and at most one validated session
    is left without a line (the one whose exception ended the batch); a
    batch that returns has printed exactly one line per validated
    session. *)
Theorem batch_reports_what_it_validates (w : World)
    (subject_name processing_level : string) (b e v : bool) :
  let run := validate_sessions w subject_name processing_level b e v in
  length (printed (trace run)) <= length (validated (trace run))
  /\ length (validated (trace run)) <= S (length (printed (trace run)))
  /\ (result run = Return tt ->
      length (printed (trace run)) = length (validated (trace run))).
Proof.
  cbv zeta.
  destruct (String.eqb_spec processing_level "raw") as [-> | Hne].
  2:{ unfold validate_sessions. rewrite (not_raw _ Hne). cbn.
      repeat split; lia. }
  destruct (Py.all [negb b; negb e; negb v]) eqn:Hall.
  { unfold validate_sessions. rewrite Hall. cbn. repeat split; lia. }
  apply some_flag_on_inv in Hall as Hflag.
  destruct (listdir (fs w) (subject_path w "raw" subject_name))
    as [names|errno] eqn:Hlist.
  - rewrite (validate_sessions_listed _ _ _ _ _ _ Hflag Hlist).
    cbn [trace result fst snd].
    change (EvIterdir ?p :: ?t) with ([EvIterdir p] ++ t).
    rewrite validated_app, printed_app. cbn [validated printed flat_map app].
    apply (for_each_lag w subject_name b e v).
  - rewrite validate_sessions_raw by exact Hflag.
    rewrite (proj1 (iterdir_fails _ _ _ Hlist)), bind_Raise. cbn.
    repeat split; lia.
Qed.
